(** * Auth_Service: registration, sign-in, session validation, admin check

    A shallow embedding of the three layers of the authentication service
    (controllers/user-controller.js, repository/user-repository.js and
    services/user-service.js, together with the request validators) and the
    properties of the credential-issuance core that hold, or fail, on it.

    JavaScript values are typed: rows of the Users and Roles tables are
    records, the response body handed to [res.json] is a [Json] value, a
    caught exception is a value of [Error].  Every [await] is sequential, so
    an [async] method is a computation in the monad [M]: it reads and writes
    the [World] (database tables, console, clock) and either returns or
    throws; what was written before a [throw] is kept, as in JavaScript. *)

From Stdlib Require Import ZArith List String Bool Lia.
Import ListNotations.
Local Open Scope string_scope.
Local Open Scope Z_scope.

(** ** JavaScript values that cross the layers *)

(** Claims handed to [createToken]: the object [{ email, id }]. *)
Record Claims := mkClaims { claim_email : string; claim_id : Z }.

(** Decoded JWT payload: the claims plus the registered claims [iat] and
    [exp] (seconds since the epoch) that [jwt.sign] adds for [expiresIn]. *)
Record Payload := mkPayload {
  payload_email : string;
  payload_id : Z;
  iat : Z;
  exp : Z
}.

Definition claims_of (p : Payload) : Claims :=
  mkClaims (payload_email p) (payload_id p).

(** Any JavaScript value a token can carry as its payload, or as a field of
    it; an array counts as an object without named fields. *)
#[local] Unset Elimination Schemes.
Inductive Value :=
| VNull
| VBool (b : bool)
| VNum (z : Z)
| VStr (s : string)
| VObj (fields : list (string * Value)).
#[local] Set Elimination Schemes.

(** What can arrive as the [token] argument, seen through the decoder of the
    JWT library: nothing at all (the [x-access-token] header is absent, or
    empty); a string that is not a compact three-part JWS; a three-part
    string whose header announces a JWT and whose payload [JSON.parse]
    refuses with [message]; the JWS the service issues, signed with HS256
    over the four claims; or any other JWS, with the algorithm its header
    names, the payload value the decoder hands over and its signature. *)
Inductive Token :=
| NoToken
| Malformed (raw : string)
| Jws (payload : Payload) (signature : string)
| Unparsable (message : string)
| Compact (alg : string) (payload : Value) (signature : string).

(** What [jwt.verify] returns: the object of the four claims, or whatever
    else a verified token carried. *)
Inductive Decoded :=
| Object (claims : Payload)
| Other (value : Value).

(** The body given to [res.json]. [JToken] is a string that holds a JWT. *)
#[local] Unset Elimination Schemes.
Inductive Json :=
| JNull
| JBool (b : bool)
| JNum (z : Z)
| JStr (s : string)
| JToken (t : Token)
| JObj (fields : list (string * Json)).
#[local] Set Elimination Schemes.

Fixpoint assoc {A} (k : string) (l : list (string * A)) : option A :=
  match l with
  | [] => None
  | (k', v) :: l' => if String.eqb k k' then Some v else assoc k l'
  end.

(** [j.k] for a JSON object; [None] is [undefined]. *)
Definition field (k : string) (j : Json) : option Json :=
  match j with
  | JObj fs => assoc k fs
  | _ => None
  end.

(** [v.k] for a payload value other than [null]; [None] is [undefined], which
    is what a boolean, a number and a string give for the names read here. *)
Definition property (k : string) (v : Value) : option Value :=
  match v with
  | VObj fs => assoc k fs
  | _ => None
  end.

(** [response.id] *)
Definition decoded_id (response : Decoded) : option Value :=
  match response with
  | Object claims => Some (VNum (payload_id claims))
  | Other value => property "id" value
  end.

(** [`${v}`] for a boolean or an object, the values [findByPk] refuses. *)
Definition template (v : Value) : string :=
  match v with
  | VBool true => "true"
  | VBool false => "false"
  | _ => "[object Object]"
  end.

(** ** Rows of the store *)

Record User := mkUser { user_id : Z; user_email : string; user_password : string }.

(** A user fetched with [attributes: ['email', 'id']]. *)
Record UserSummary := mkSummary { summary_email : string; summary_id : Z }.

Record Role := mkRole { role_id : Z; role_name : string }.

(** The body of a sign-up request: [{ email, password }]. *)
Record UserData := mkData { data_email : string; data_password : string }.

(** ** Exceptions *)

(** Everything the service throws or lets through. [AppErrors] has the four
    fields its call site passes and the controllers read; [Thrown] is the
    object literal [{ error: '...' }]; [TypeError] is what the runtime raises
    on a property read of [null] and [SyntaxError] what [JSON.parse] raises;
    the other three token errors are the classes of the JWT library. *)
Inductive Error :=
| SequelizeError (name message : string)
| AppErrors (name message explanation : string) (statusCode : Z)
| JsError (message : string)
| JsonWebTokenError (message : string)
| TokenExpiredError (message : string)
| NotBeforeError (message : string)
| SyntaxError (message : string)
| TypeError (message : string)
| Thrown (error : string).

Definition error_name (e : Error) : option string :=
  match e with
  | SequelizeError n _ => Some n
  | AppErrors n _ _ _ => Some n
  | JsError _ => Some "Error"
  | JsonWebTokenError _ => Some "JsonWebTokenError"
  | TokenExpiredError _ => Some "TokenExpiredError"
  | NotBeforeError _ => Some "NotBeforeError"
  | SyntaxError _ => Some "SyntaxError"
  | TypeError _ => Some "TypeError"
  | Thrown _ => None
  end.

Definition error_message (e : Error) : option string :=
  match e with
  | SequelizeError _ m => Some m
  | AppErrors _ m _ _ => Some m
  | JsError m => Some m
  | JsonWebTokenError m => Some m
  | TokenExpiredError m => Some m
  | NotBeforeError m => Some m
  | SyntaxError m => Some m
  | TypeError m => Some m
  | Thrown _ => None
  end.

Definition error_explanation (e : Error) : option string :=
  match e with
  | AppErrors _ _ x _ => Some x
  | _ => None
  end.

Definition error_statusCode (e : Error) : option Z :=
  match e with
  | AppErrors _ _ _ c => Some c
  | _ => None
  end.

(** [error.name == s] *)
Definition name_is (e : Error) (s : string) : bool :=
  match error_name e with
  | Some n => String.eqb n s
  | None => false
  end.

(** ** Truthiness *)

Class Truthy (A : Type) := truthy : A -> bool.

#[export] Instance Truthy_bool : Truthy bool := fun b => b.
#[export] Instance Truthy_Z : Truthy Z := fun z => negb (z =? 0).
#[export] Instance Truthy_string : Truthy string :=
  fun s => negb (String.eqb s "").
#[export] Instance Truthy_Payload : Truthy Payload := fun _ => true.
(** [null], [false], [0] and the empty string are falsy; objects are not. *)
#[export] Instance Truthy_Value : Truthy Value :=
  fun v => match v with
           | VNull => false
           | VBool b => b
           | VNum z => negb (z =? 0)
           | VStr s => negb (String.eqb s "")
           | VObj _ => true
           end.
#[export] Instance Truthy_Decoded : Truthy Decoded :=
  fun d => match d with
           | Object claims => truthy claims
           | Other value => truthy value
           end.
#[export] Instance Truthy_User : Truthy User := fun _ => true.
#[export] Instance Truthy_UserSummary : Truthy UserSummary := fun _ => true.
#[export] Instance Truthy_Role : Truthy Role := fun _ => true.
(** [None] stands for [null] and [undefined]. *)
#[export] Instance Truthy_option {A} `{Truthy A} : Truthy (option A) :=
  fun o => match o with Some a => truthy a | None => false end.

(** [x || d] *)
Definition or_else {A} `{Truthy A} (x : option A) (d : A) : A :=
  match x with
  | Some a => if truthy a then a else d
  | None => d
  end.

(** ** Serialisation by [res.json] *)

Class ToJSON (A : Type) := toJSON : A -> Json.

#[export] Instance ToJSON_bool : ToJSON bool := JBool.
#[export] Instance ToJSON_Token : ToJSON Token := JToken.
#[export] Instance ToJSON_User : ToJSON User :=
  fun u => JObj [("id", JNum (user_id u));
                 ("email", JStr (user_email u));
                 ("password", JStr (user_password u))].
#[export] Instance ToJSON_UserSummary : ToJSON UserSummary :=
  fun u => JObj [("email", JStr (summary_email u)); ("id", JNum (summary_id u))].

(** ** The world and the monad of effects *)

Record World := mkWorld {
  Users : list User;
  Roles : list Role;
  User_Roles : list (Z * Z);           (* join table: (UserId, RoleId) *)
  Users_autoIncrement : Z;             (* last id the Users table gave out *)
  console : list (string * option Error);
  Date_now : Z                         (* milliseconds since the epoch *)
}.

Inductive Outcome (A : Type) :=
| Return (a : A)
| Throw (e : Error).
Arguments Return {A} a.
Arguments Throw {A} e.

Definition M (A : Type) : Type := World -> Outcome A * World.

Definition ret {A} (a : A) : M A := fun w => (Return a, w).

Definition throw {A} (e : Error) : M A := fun w => (Throw e, w).

Definition bind {A B} (m : M A) (k : A -> M B) : M B :=
  fun w =>
    match m w with
    | (Return a, w') => k a w'
    | (Throw e, w') => (Throw e, w')
    end.

(** [try { m } catch (error) { h error }] *)
Definition try_catch {A} (m : M A) (h : Error -> M A) : M A :=
  fun w =>
    match m w with
    | (Return a, w') => (Return a, w')
    | (Throw e, w') => h e w'
    end.

Declare Scope js_scope.
Delimit Scope js_scope with js.
Notation "x <- m ;; k" := (bind m (fun x => k))
  (at level 61, m at next level, right associativity) : js_scope.
Notation "m ;;; k" := (bind m (fun _ => k))
  (at level 61, right associativity) : js_scope.
Local Open Scope js_scope.

Definition console_log (s : string) : M unit :=
  fun w => (Return tt,
            mkWorld (Users w) (Roles w) (User_Roles w) (Users_autoIncrement w)
                    (console w ++ [(s, None)]) (Date_now w)).

Definition console_log_error (s : string) (e : Error) : M unit :=
  fun w => (Return tt,
            mkWorld (Users w) (Roles w) (User_Roles w) (Users_autoIncrement w)
                    (console w ++ [(s, Some e)]) (Date_now w)).

(** [o.prop] where [o] may be [null]. *)
Definition read_property {A B} (o : option A) (prop : string) (get : A -> B) : M B :=
  match o with
  | Some a => ret (get a)
  | None => throw (TypeError ("Cannot read properties of null (reading '" ++ prop ++ "')"))
  end.

(** The value and the world a computation ends with. *)
Definition result {A} (m : M A) (w : World) : Outcome A := fst (m w).
Definition world_after {A} (m : M A) (w : World) : World := snd (m w).

(** ** What the service takes from outside

    The signing key and the salt come from config/serverConfig.js, the two
    bcrypt functions and the HMACs of the JWT library are library code,
    [ValidationError] is the constructor of utils/validation-error.js, and
    the schema of the database is in its migrations: none of them is among
    the sources, so the embedding is parametric in them.

    [HS256] signs the claims the service issues; [HMAC] gives, for an
    algorithm and a key, the signature of any other payload.
    [select_by_string] is how the database compares the integer key of the
    Users table with a string: the row it matches, if any, or the message of
    the error it raises.  [User_Roles_onDelete_cascade] tells whether the
    join table's foreign key removes the edges of a deleted user. *)
Class Externals := {
  JWT_KEY : string;
  SALT : string;
  bcrypt_hashSync : string -> string -> string;
  bcrypt_compareSync : string -> string -> bool;
  HS256 : string -> Payload -> string;
  HMAC : string -> string -> Value -> string;
  select_by_string : string -> list User -> string + option User;
  User_Roles_onDelete_cascade : bool;
  ValidationError : Error -> Error
}.

(** ** The store: the Sequelize models [User] and [Role] *)

Module Sequelize.

(** [User.findByPk(userId)] *)
Definition User_findByPk (userId : Z) : M (option User) :=
  fun w => (Return (find (fun u => user_id u =? userId) (Users w)), w).

(** The row as [attributes: ['email', 'id']] selects it. *)
Definition email_id (u : User) : UserSummary := mkSummary (user_email u) (user_id u).

(** [User.findOne({ where: { email: userEmail } })] *)
Definition User_findOne_email (userEmail : string) : M (option User) :=
  fun w => (Return (find (fun u => String.eqb (user_email u) userEmail) (Users w)), w).

(** [Role.findOne({ where: { name } })] *)
Definition Role_findOne_name (name : string) : M (option Role) :=
  fun w => (Return (find (fun r => String.eqb (role_name r) name) (Roles w)), w).

(** The membership edge between a user and a role in the join table. *)
Definition edge (l : list (Z * Z)) (userId roleId : Z) : bool :=
  existsb (fun e => (fst e =? userId) && (snd e =? roleId)) l.

(** [user.hasRole(role)], the mixin of the many-to-many association. Asked
    about [null] it looks for a role whose key is [null] and finds none. *)
Definition hasRole (user : User) (role : option Role) : M bool :=
  fun w =>
    (Return match role with
            | Some r => edge (User_Roles w) (user_id user) (role_id r)
            | None => false
            end, w).

Section Create.
Context `{Externals}.

(** [User.findByPk(param, { attributes: ['email', 'id'] })]: [null] for a
    missing key, a query for a number or a string, an error for anything
    else. *)
Definition User_findByPk_email_id (param : option Value) : M (option UserSummary) :=
  fun w =>
    match param with
    | None => (Return None, w)
    | Some VNull => (Return None, w)
    | Some (VNum userId) =>
        (Return (option_map email_id (find (fun u => user_id u =? userId) (Users w))), w)
    | Some (VStr s) =>
        match select_by_string s (Users w) with
        | inr row => (Return (option_map email_id row), w)
        | inl message => (Throw (SequelizeError "SequelizeDatabaseError" message), w)
        end
    | Some v =>
        (Throw (JsError ("Argument passed to findByPk is invalid: " ++ template v)), w)
    end.

(** [User.destroy({ where: { id: userId } })]: the rows with that id go, and
    with them, if the foreign key cascades and a row did go, the edges of
    that user. *)
Definition User_destroy (userId : Z) : M unit :=
  fun w =>
    (Return tt,
     mkWorld (filter (fun u => negb (user_id u =? userId)) (Users w))
             (Roles w)
             (if User_Roles_onDelete_cascade
                 && existsb (fun u => user_id u =? userId) (Users w)
              then filter (fun e => negb (fst e =? userId)) (User_Roles w)
              else User_Roles w)
             (Users_autoIncrement w)
             (console w) (Date_now w)).

(** Modelled from the spec: [User.create] of models/user.js, which is not
    among the sources.  The store persists a new Account with that email and
    [hash(plaintext)], assigns the identity itself, and reports a uniqueness
    violation when the email is already registered. *)
Definition User_create (data : UserData) : M User :=
  fun w =>
    if existsb (fun u => String.eqb (user_email u) (data_email data)) (Users w)
    then (Throw (SequelizeError "SequelizeUniqueConstraintError" "Validation error"), w)
    else
      let user := mkUser (Users_autoIncrement w + 1) (data_email data)
                         (bcrypt_hashSync (data_password data) SALT) in
      (Return user,
       mkWorld (Users w ++ [user]) (Roles w) (User_Roles w)
               (Users_autoIncrement w + 1) (console w) (Date_now w)).

End Create.
End Sequelize.

(** ** The JWT library *)

Module jwt.
Section Codec.
Context `{Externals}.

(** Seconds since the epoch, as the library reads the clock. *)
Definition clockTimestamp (w : World) : Z := Date_now w / 1000.

(** [jwt.sign(user, key, { expiresIn: '1d' })]: the payload gets [iat] and
    [exp = iat + 86400] and is signed with the key; an empty key is refused. *)
Definition sign (user : Claims) (key : string) : M Token :=
  fun w =>
    if String.eqb key ""
    then (Throw (JsError "secretOrPrivateKey must have a value"), w)
    else
      let timestamp := clockTimestamp w in
      let payload := mkPayload (claim_email user) (claim_id user)
                               timestamp (timestamp + 86400) in
      (Return (Jws payload (HS256 key payload)), w).

(** The algorithms [jwt.verify] accepts for a key that is a secret. *)
Definition HS_ALGS : list string := ["HS256"; "HS384"; "HS512"].

(** The checks [jwt.verify] makes on a payload whose signature has verified:
    [payload.nbf], then [payload.exp], each only when defined.  The read of
    [nbf] on [null] raises. *)
Definition validate (payload : Value) : M Decoded :=
  fun w =>
    match payload with
    | VNull => (Throw (TypeError "Cannot read properties of null (reading 'nbf')"), w)
    | _ =>
        match
          match property "nbf" payload with
          | None => None
          | Some (VNum nbf) =>
              if clockTimestamp w <? nbf
              then Some (NotBeforeError "jwt not active") else None
          | Some _ => Some (JsonWebTokenError "invalid nbf value")
          end
        with
        | Some error => (Throw error, w)
        | None =>
            match property "exp" payload with
            | None => (Return (Other payload), w)
            | Some (VNum expiry) =>
                if expiry <=? clockTimestamp w
                then (Throw (TokenExpiredError "jwt expired"), w)
                else (Return (Other payload), w)
            | Some _ => (Throw (JsonWebTokenError "invalid exp value"), w)
            end
        end
    end.

(** [jwt.verify(token, key)]: presence, shape, decoding, key, algorithm,
    signature, not-before, expiry, in that order.  An error of the decoder
    is thrown as it is. *)
Definition verify (token : Token) (key : string) : M Decoded :=
  fun w =>
    match token with
    | NoToken => (Throw (JsonWebTokenError "jwt must be provided"), w)
    | Malformed _ => (Throw (JsonWebTokenError "jwt malformed"), w)
    | Unparsable message => (Throw (SyntaxError message), w)
    | Jws payload signature =>
        if String.eqb key ""
        then (Throw (JsonWebTokenError "secret or public key must be provided"), w)
        else if negb (String.eqb signature (HS256 key payload))
        then (Throw (JsonWebTokenError "invalid signature"), w)
        else if exp payload <=? clockTimestamp w
        then (Throw (TokenExpiredError "jwt expired"), w)
        else (Return (Object payload), w)
    | Compact alg payload signature =>
        if String.eqb key ""
        then (Throw (JsonWebTokenError "secret or public key must be provided"), w)
        else if String.eqb signature ""
        then (Throw (JsonWebTokenError "jwt signature is required"), w)
        else if negb (existsb (String.eqb alg) HS_ALGS)
        then (Throw (JsonWebTokenError "invalid algorithm"), w)
        else if negb (String.eqb signature (HMAC alg key payload))
        then (Throw (JsonWebTokenError "invalid signature"), w)
        else validate payload w
    end.

End Codec.
End jwt.

(** ** repository/user-repository.js *)

Module UserRepository.
Section Repository.
Context `{Externals}.

Definition create (data : UserData) : M User :=
  try_catch
    (user <- Sequelize.User_create data ;;
     ret user)
    (fun error =>
       if name_is error "SequelizeValidationError"
       then throw (ValidationError error)
       else
         console_log "Something went wrong on repository layer" ;;;
         throw error).

Definition destroy (userId : Z) : M bool :=
  try_catch
    (Sequelize.User_destroy userId ;;;
     ret true)
    (fun error =>
       console_log "Something went wrong on repository layer" ;;;
       throw error).

Definition getById (userId : option Value) : M (option UserSummary) :=
  try_catch
    (user <- Sequelize.User_findByPk_email_id userId ;;
     ret user)
    (fun error =>
       console_log "Something went wrong on repository layer" ;;;
       throw error).

Definition getByEmail (userEmail : string) : M (option User) :=
  try_catch
    (user <- Sequelize.User_findOne_email userEmail ;;
     ret user)
    (fun error =>
       console_log "Something went wrong on repository layer" ;;;
       throw error).

Definition isAdmin (userId : Z) : M bool :=
  try_catch
    (user <- Sequelize.User_findByPk userId ;;
     adminRole <- Sequelize.Role_findOne_name "ADMIN" ;;
     user_hasRole <- read_property user "hasRole" Sequelize.hasRole ;;
     user_hasRole adminRole)
    (fun error =>
       console_log "Something went wrong on repository layer" ;;;
       throw error).

End Repository.
End UserRepository.

(** ** services/user-service.js *)

Module UserService.
Section Service.
Context `{Externals}.

Definition create (data : UserData) : M User :=
  try_catch
    (user <- UserRepository.create data ;;
     ret user)
    (fun error =>
       if name_is error "SequelizeValidationError"
       then throw error
       else
         console_log "Something went wrong in the service layer" ;;;
         throw (AppErrors "ServerError"
                          "Something went wrong in the service layer"
                          "Logical issue found"
                          500)).

Definition createToken (user : Claims) : M Token :=
  try_catch
    (jwt.sign user JWT_KEY)
    (fun error =>
       console_log "Something went wrong in token creation" ;;;
       throw error).

Definition verifyToken (token : Token) : M Decoded :=
  try_catch
    (jwt.verify token JWT_KEY)
    (fun error =>
       console_log_error "Something went wrong in token validation" error ;;;
       throw error).

Definition checkPassword (userInputPlainPassword encryptedPassword : string) : M bool :=
  try_catch
    (ret (bcrypt_compareSync userInputPlainPassword encryptedPassword))
    (fun error =>
       console_log "Something went wrong in password comparison" ;;;
       throw error).

Definition signIn (email plainPassword : string) : M Token :=
  try_catch
    (user <- UserRepository.getByEmail email ;;
     user_password <- read_property user "password" user_password ;;
     passwordsMatch <- checkPassword plainPassword user_password ;;
     (if negb (truthy passwordsMatch)
      then
        console_log "Password doesn't match" ;;;
        throw (Thrown "Incorrect password")
      else ret tt) ;;;
     user_email <- read_property user "email" user_email ;;
     user_id <- read_property user "id" user_id ;;
     newJWT <- createToken (mkClaims user_email user_id) ;;
     ret newJWT)
    (fun error =>
       console_log "Something went wrong in the sign-in process" ;;;
       throw error).

Definition isAuthenticated (token : Token) : M bool :=
  try_catch
    (response <- verifyToken token ;;
     (if negb (truthy response)
      then throw (Thrown "Invalid token")
      else ret tt) ;;;
     user <- UserRepository.getById (decoded_id response) ;;
     (if negb (truthy user)
      then throw (Thrown "No user with the corresponding token exists")
      else ret tt) ;;;
     ret true)
    (fun error =>
       console_log "Something went wrong in the auth process" ;;;
       throw error).

Definition isAdmin (userId : Z) : M bool :=
  try_catch
    (UserRepository.isAdmin userId)
    (fun error =>
       console_log "Something went wrong in service layer" ;;;
       throw error).

End Service.
End UserService.

(** ** HTTP: requests, responses, validators and controllers *)

(** The parts of an Express request the service reads. *)
Record Request := mkRequest {
  body_email : string;
  body_password : string;
  body_id : Z;
  x_access_token : Token
}.

(** [res.status(status).json({ success, message, data, err })] *)
Record Response := mkResponse {
  status : Z;
  success : bool;
  message : string;
  data : Json;
  err : Json
}.

(** The catch block every controller shares, up to its fallback for [err]. *)
Definition error_response (error : Error) (fallback : string) : Response :=
  mkResponse (or_else (error_statusCode error) 500)
             false
             (or_else (error_message error) "Something went wrong")
             (JObj [])
             (JStr (or_else (error_explanation error) fallback)).

(** middlewares/auth-request-validators.js: [Some] is the response sent
    instead of calling [next()]. *)
Module AuthRequestValidators.

Definition validateUserAuth (req : Request) : option Response :=
  if negb (truthy (body_email req)) || negb (truthy (body_password req))
  then Some (mkResponse 400 false "Validation failed" (JObj [])
                        (JStr "Email or password missing in the request"))
  else None.

Definition validateIsAdminRequest (req : Request) : option Response :=
  if negb (truthy (body_id req))
  then Some (mkResponse 400 false "Validation failed" (JObj [])
                        (JStr "User ID not provided in the request"))
  else None.

End AuthRequestValidators.

(** controllers/user-controller.js *)
Module UserController.
Section Controller.
Context `{Externals}.

Definition create (req : Request) : M Response :=
  try_catch
    (response <- UserService.create (mkData (body_email req) (body_password req)) ;;
     ret (mkResponse 201 true "Successfully created a new user"
                     (toJSON response) (JObj [])))
    (fun error => ret (error_response error "An unexpected error occurred")).

Definition signIn (req : Request) : M Response :=
  try_catch
    (response <- UserService.signIn (body_email req) (body_password req) ;;
     ret (mkResponse 200 true "Successfully signed in"
                     (toJSON response) (JObj [])))
    (fun error => ret (error_response error "Authentication failed")).

Definition isAuthenticated (req : Request) : M Response :=
  try_catch
    (let token := x_access_token req in
     response <- UserService.isAuthenticated token ;;
     ret (mkResponse 200 true "User is authenticated and token is valid"
                     (toJSON response) (JObj [])))
    (fun error => ret (error_response error "Authentication failed")).

Definition isAdmin (req : Request) : M Response :=
  try_catch
    (response <- UserService.isAdmin (body_id req) ;;
     ret (mkResponse 200 true "Successfully fetched whether user is admin or not"
                     (toJSON response) (JObj [])))
    (fun error => ret (error_response error "Authorization failed")).

End Controller.
End UserController.

(** routes/v1/index.js: a validator, then the controller. *)
Module Routes.
Section Router.
Context `{Externals}.

Definition guarded (validator : Request -> option Response)
                   (controller : Request -> M Response) (req : Request) : M Response :=
  match validator req with
  | Some rejected => ret rejected
  | None => controller req
  end.

Definition signup := guarded AuthRequestValidators.validateUserAuth UserController.create.
Definition signin := guarded AuthRequestValidators.validateUserAuth UserController.signIn.
Definition isAuthenticated := UserController.isAuthenticated.
Definition isAdmin := guarded AuthRequestValidators.validateIsAdminRequest UserController.isAdmin.

End Router.
End Routes.

(** ** The error taxonomy of the specification

    The service throws library errors and object literals; the
    specification names kinds of failure.  [kind_of] reads one as the other.
    A [TypeError] is a crash of the runtime and belongs to no kind, and
    neither do a [SyntaxError] of [JSON.parse] and the catch-all [AppErrors]
    of the service layer. *)
Inductive ErrorKind :=
| DuplicateAccount
| AccountNotFound
| InvalidCredentials
| InvalidToken
| ExpiredToken
| AccountGone
| StoreUnavailable.

Definition kind_of (e : Error) : option ErrorKind :=
  match e with
  | TokenExpiredError _ => Some ExpiredToken
  | JsonWebTokenError _ => Some InvalidToken
  | NotBeforeError _ => Some InvalidToken
  | SyntaxError _ => None
  | Thrown error =>
      if String.eqb error "Incorrect password" then Some InvalidCredentials
      else if String.eqb error "Invalid token" then Some InvalidToken
      else if String.eqb error "No user with the corresponding token exists"
      then Some AccountGone
      else None
  | SequelizeError name _ =>
      if String.eqb name "SequelizeUniqueConstraintError" then Some DuplicateAccount
      else Some StoreUnavailable
  | AppErrors _ _ _ _ => None
  | JsError _ => None
  | TypeError _ => None
  end.

(** The summary the specification promises outward: a body that carries the
    identity and the email of an account. *)
Definition carries_identity_and_email (d : Json) (id : Z) (email : string) : Prop :=
  field "id" d = Some (JNum id) /\ field "email" d = Some (JStr email).

(** A body that shows a stored password. *)
Definition exposes_password (d : Json) : bool :=
  match field "password" d with
  | Some _ => true
  | None => false
  end.

(** ** What a token carries *)

Section TokenPredicates.
Context `{Externals}.

(** The token parses and its signature is the one the service key gives,
    under an algorithm the library accepts for a secret. *)
Definition signature_verifies (token : Token) : bool :=
  match token with
  | Jws payload signature => String.eqb signature (HS256 JWT_KEY payload)
  | Compact alg payload signature =>
      negb (String.eqb signature "")
      && existsb (String.eqb alg) jwt.HS_ALGS
      && String.eqb signature (HMAC alg JWT_KEY payload)
  | _ => false
  end.

(** The expiry a token encodes, when it parses and [exp] is a number. *)
Definition encoded_expiry (token : Token) : option Z :=
  match token with
  | Jws payload _ => Some (exp payload)
  | Compact _ payload _ =>
      match property "exp" payload with
      | Some (VNum expiry) => Some expiry
      | _ => None
      end
  | _ => None
  end.

(** The decoder itself raises on the token. *)
Definition decoder_raises (token : Token) : bool :=
  match token with
  | Unparsable _ => true
  | _ => false
  end.

(** The payload can be read and its [nbf], if it has one, is a number that
    is not in the future at second [now]. *)
Definition already_active (token : Token) (now : Z) : bool :=
  match token with
  | Compact _ VNull _ => false
  | Compact _ payload _ =>
      match property "nbf" payload with
      | None => true
      | Some (VNum nbf) => nbf <=? now
      | Some _ => false
      end
  | _ => true
  end.

(** The payload a verified token hands over is falsy: [0], [false] or the
    empty string. *)
Definition falsy_payload (token : Token) : bool :=
  match token with
  | Compact _ (VBool false) _ => true
  | Compact _ (VNum 0) _ => true
  | Compact _ (VStr "") _ => true
  | _ => false
  end.

End TokenPredicates.

(** ** A concrete configuration and concrete worlds

    Toy stand-ins for the libraries, to run the service on. *)

Definition demo : Externals := {|
  JWT_KEY := "secret";
  SALT := "$2b$09$";
  bcrypt_hashSync := fun plain salt => salt ++ plain;
  bcrypt_compareSync := fun plain hash => String.eqb hash ("$2b$09$" ++ plain);
  HS256 := fun key payload => key ++ "/" ++ payload_email payload;
  HMAC := fun alg key payload => key ++ "/" ++ alg;
  select_by_string := fun s users => inr None;
  User_Roles_onDelete_cascade := true;
  ValidationError := fun error => error
|}.

Definition alice : User := mkUser 1 "a@x.com" "$2b$09$pw123".
Definition bob : User := mkUser 2 "b@x.com" "$2b$09$hunter2".

Definition admin_role : Role := mkRole 1 "ADMIN".
Definition staff_role : Role := mkRole 2 "AIRLINE_BUSINESS".

(** Nobody has signed up yet; the clock reads 1000 s. *)
Definition empty_world : World := mkWorld [] [admin_role; staff_role] [] 0 [] 1000000.

(** Alice and Bob have signed up; Alice is an administrator. *)
Definition demo_world : World :=
  mkWorld [alice; bob] [admin_role; staff_role] [(1, 1)] 2 [] 1000000.

(** The same, and Bob has the other role as well. *)
Definition demo_world' : World :=
  mkWorld [alice; bob] [admin_role; staff_role] [(1, 1); (2, 2)] 2 [] 1000000.

(** The same as [demo_world] after Alice's account was deleted. *)
Definition world_without_alice : World :=
  mkWorld [bob] [admin_role; staff_role] [(1, 1)] 2 [] 1000000.

(** The token [demo] issues to Alice at 1000 s, and what it decodes to. *)
Definition alice_payload : Payload := mkPayload "a@x.com" 1 1000 87400.
Definition alice_token : Token := Jws alice_payload "secret/a@x.com".

(** The same token a day later. *)
Definition day_later (w : World) : World :=
  mkWorld (Users w) (Roles w) (User_Roles w) (Users_autoIncrement w)
          (console w) (Date_now w + 86400000).

(** ** Frames

    What an operation may touch: the tables, the id counter and the clock on
    one side, the console on the other. *)

(** Two worlds with the same tables, id counter and clock. *)
Definition same_store (w w' : World) : Prop :=
  Users w' = Users w /\ Roles w' = Roles w /\ User_Roles w' = User_Roles w /\
  Users_autoIncrement w' = Users_autoIncrement w /\ Date_now w' = Date_now w.

(** The console of [w'] is the console of [w] followed by [added]. *)
Definition logged (w w' : World) (added : list (string * option Error)) : Prop :=
  console w' = (console w ++ added)%list.

(** The lines [signIn] and the methods it calls can write. *)
Definition signIn_lines : list (string * option Error) :=
  [("Password doesn't match", None);
   ("Something went wrong in the sign-in process", None);
   ("Something went wrong in token creation", None);
   ("Something went wrong in password comparison", None);
   ("Something went wrong on repository layer", None)].

(** The world with another clock. *)
Definition at_time (w : World) (ms : Z) : World :=
  mkWorld (Users w) (Roles w) (User_Roles w) (Users_autoIncrement w) (console w) ms.

(** A controller run that ends in a response: either the success status
    [ok], or status 500 with [success: false] and [data: {}]. *)
Definition answers (m : M Response) (w : World) (ok : Z) : Prop :=
  exists resp,
    result m w = Return resp /\
    ((status resp = ok /\ success resp = true) \/
     (status resp = 500 /\ success resp = false /\ data resp = JObj [])).

(** The configuration [demo] with the signing key left unset. *)
Definition demo_without_key : Externals := {|
  JWT_KEY := "";
  SALT := "$2b$09$";
  bcrypt_hashSync := fun plain salt => salt ++ plain;
  bcrypt_compareSync := fun plain hash => String.eqb hash ("$2b$09$" ++ plain);
  HS256 := fun key payload => key ++ "/" ++ payload_email payload;
  HMAC := fun alg key payload => key ++ "/" ++ alg;
  select_by_string := fun s users => inr None;
  User_Roles_onDelete_cascade := true;
  ValidationError := fun error => error
|}.

(** The errors the JWT library and the runtime raise while a token is
    verified. *)
Definition library_error (e : Error) : bool :=
  match e with
  | JsonWebTokenError _ | TokenExpiredError _ | NotBeforeError _
  | SyntaxError _ | TypeError _ => true
  | _ => false
  end.

(** * Properties *)

Section Properties.
Context `{Externals}.

(** ** The repository reads the tables and leaves the world alone *)

Lemma getById_run (userId : Z) (w : World) :
  UserRepository.getById (Some (VNum userId)) w =
  (Return (option_map Sequelize.email_id
                      (find (fun u => user_id u =? userId) (Users w))), w).
Proof. reflexivity. Qed.

Lemma getByEmail_run (userEmail : string) (w : World) :
  UserRepository.getByEmail userEmail w =
  (Return (find (fun u => String.eqb (user_email u) userEmail) (Users w)), w).
Proof. reflexivity. Qed.

(** ** The token codec *)

(** The checks on a verified payload: they hand the payload back or raise,
    and leave the world alone. *)
Lemma validate_cases (payload : Value) (w : World) :
  match jwt.validate payload w with
  | (Return d, w') => w' = w /\ d = Other payload /\ payload <> VNull
  | (Throw e, w') => w' = w /\ library_error e = true
  end.
Proof.
  unfold jwt.validate.
  destruct payload; try (split; reflexivity);
    (destruct (property "nbf" _) as [[| | nbf | |]|];
     [ | | destruct (jwt.clockTimestamp w <? nbf) | | | ];
     try (split; reflexivity);
     (destruct (property "exp" _) as [[| | expiry | |]|];
      [ | | destruct (expiry <=? jwt.clockTimestamp w) | | | ];
      repeat split; discriminate)).
Qed.

(** Every run of [jwt.verify]: what it returns tells what the token was, and
    what it throws is an error of the library. *)
Lemma verify_cases (token : Token) (key : string) (w : World) :
  match jwt.verify token key w with
  | (Return (Object p), w') =>
      w' = w /\ key <> "" /\ token = Jws p (HS256 key p) /\ jwt.clockTimestamp w < exp p
  | (Return (Other v), w') =>
      w' = w /\ key <> "" /\ v <> VNull /\
      exists alg, token = Compact alg v (HMAC alg key v) /\
                  HMAC alg key v <> "" /\
                  existsb (String.eqb alg) jwt.HS_ALGS = true
  | (Throw e, w') => w' = w /\ library_error e = true
  end.
Proof.
  unfold jwt.verify.
  destruct token as [|raw|payload signature|message|alg payload signature];
    try (split; reflexivity).
  - destruct (String.eqb_spec key "") as [Hk|Hk]; [split; reflexivity|].
    destruct (String.eqb_spec signature (HS256 key payload)) as [Hs|Hs]; cbn;
      [|split; reflexivity].
    destruct (Z.leb_spec (exp payload) (jwt.clockTimestamp w)); [split; reflexivity|].
    subst signature. repeat split; auto.
  - destruct (String.eqb_spec key "") as [Hk|Hk]; [split; reflexivity|].
    destruct (String.eqb_spec signature "") as [Hn|Hn]; [split; reflexivity|].
    destruct (existsb (String.eqb alg) jwt.HS_ALGS) eqn:Halg; cbn; [|split; reflexivity].
    destruct (String.eqb_spec signature (HMAC alg key payload)) as [Hs|Hs]; cbn;
      [|split; reflexivity].
    pose proof (validate_cases payload w) as Hv.
    destruct (jwt.validate payload w) as [[d|err] w']; [|exact Hv].
    destruct Hv as (-> & -> & Hnull). subst signature.
    repeat split; auto. exists alg. repeat split; auto.
Qed.

(** [verifyToken] is [jwt.verify] with the service key; a failure is logged
    with its error and thrown again. *)
Lemma verifyToken_run (token : Token) (w : World) :
  UserService.verifyToken token w =
  match fst (jwt.verify token JWT_KEY w) with
  | Return d => (Return d, w)
  | Throw e =>
      (Throw e,
       world_after (console_log_error "Something went wrong in token validation" e) w)
  end.
Proof.
  unfold UserService.verifyToken, try_catch.
  pose proof (verify_cases token JWT_KEY w) as Hc.
  destruct (jwt.verify token JWT_KEY w) as [[[p|v]|e] w']; cbn.
  - destruct Hc as (-> & _). reflexivity.
  - destruct Hc as (-> & _). reflexivity.
  - destruct Hc as (-> & _). reflexivity.
Qed.

(** A token that verifies to the four claims is a JWS signed with the key
    and not yet expired; verification then leaves the world alone. *)
Lemma verifyToken_Return (token : Token) (w : World) (p : Payload) :
  result (UserService.verifyToken token) w = Return (Object p) ->
  UserService.verifyToken token w = (Return (Object p), w) /\
  token = Jws p (HS256 JWT_KEY p) /\
  JWT_KEY <> "" /\
  jwt.clockTimestamp w < exp p.
Proof.
  unfold result. rewrite verifyToken_run.
  pose proof (verify_cases token JWT_KEY w) as Hc.
  destruct (jwt.verify token JWT_KEY w) as [[[q|v]|e] w']; cbn; try discriminate.
  intros [= ->]. destruct Hc as (_ & Hk & Ht & Hexp). auto.
Qed.

(** A token that verifies to anything else is a JWS signed with the key
    under one of the accepted algorithms. *)
Lemma verifyToken_Return_Other (token : Token) (w : World) (v : Value) :
  result (UserService.verifyToken token) w = Return (Other v) ->
  UserService.verifyToken token w = (Return (Other v), w) /\
  JWT_KEY <> "" /\ v <> VNull /\
  exists alg, token = Compact alg v (HMAC alg JWT_KEY v) /\
              HMAC alg JWT_KEY v <> "" /\
              existsb (String.eqb alg) jwt.HS_ALGS = true.
Proof.
  unfold result. rewrite verifyToken_run.
  pose proof (verify_cases token JWT_KEY w) as Hc.
  destruct (jwt.verify token JWT_KEY w) as [[[q|u]|e] w']; cbn; try discriminate.
  intros [= ->]. destruct Hc as (_ & Hk & Hnull & Halg). auto.
Qed.

(** What verification throws is an error of the library. *)
Lemma verifyToken_Throw (token : Token) (w : World) (e : Error) :
  result (UserService.verifyToken token) w = Throw e -> library_error e = true.
Proof.
  unfold result. rewrite verifyToken_run.
  pose proof (verify_cases token JWT_KEY w) as Hc.
  destruct (jwt.verify token JWT_KEY w) as [[[q|u]|e'] w']; cbn; try discriminate.
  intros [= ->]. apply Hc.
Qed.

Lemma verifyToken_total (token : Token) (w : World) :
  (exists e, result (UserService.verifyToken token) w = Throw e) \/
  (exists d, result (UserService.verifyToken token) w = Return d).
Proof.
  destruct (result (UserService.verifyToken token) w) as [d|e]; eauto.
Qed.

(** ** Session validation *)

(** What [isAuthenticated] does once the token has verified: it looks the
    account up and answers [true] or throws. *)
Lemma isAuthenticated_after_verify (token : Token) (w : World) (p : Payload) :
  result (UserService.verifyToken token) w = Return (Object p) ->
  UserService.isAuthenticated token w =
  match find (fun u => user_id u =? payload_id p) (Users w) with
  | Some _ => (Return true, w)
  | None =>
      (Throw (Thrown "No user with the corresponding token exists"),
       world_after (console_log "Something went wrong in the auth process") w)
  end.
Proof.
  intros Hv. apply verifyToken_Return in Hv as (Hrun & _).
  unfold UserService.isAuthenticated, try_catch, bind.
  rewrite Hrun. cbn.
  destruct (find _ (Users w)); reflexivity.
Qed.

(** C1 (as amended). For every token that session validation accepts (it
    verifies and its identity resolves to an account), [isAuthenticated]
    returns the boolean [true] and changes nothing; the controller sends
    [data: true]. The account row is looked up but not returned. *)
Theorem isAuthenticated_returns_true (token : Token) (w : World) (p : Payload) (u : User) :
  result (UserService.verifyToken token) w = Return (Object p) ->
  find (fun u => user_id u =? payload_id p) (Users w) = Some u ->
  UserService.isAuthenticated token w = (Return true, w) /\
  forall req, x_access_token req = token ->
    result (UserController.isAuthenticated req) w =
    Return (mkResponse 200 true "User is authenticated and token is valid"
                       (JBool true) (JObj [])).
Proof.
  intros Hv Hu.
  pose proof (isAuthenticated_after_verify token w p Hv) as Hrun.
  rewrite Hu in Hrun. split; [exact Hrun|].
  intros req <-.
  unfold result, UserController.isAuthenticated, try_catch, bind.
  rewrite Hrun. reflexivity.
Qed.

(** C6. For every token that verifies (well-formed, signed with the key, not
    expired) whose identity resolves to no account in the store,
    [isAuthenticated] throws [{ error: 'No user with the corresponding token
    exists' }], the failure of kind AccountGone; it does not succeed. *)
Theorem isAuthenticated_account_gone (token : Token) (w : World) (p : Payload) :
  result (UserService.verifyToken token) w = Return (Object p) ->
  find (fun u => user_id u =? payload_id p) (Users w) = None ->
  result (UserService.isAuthenticated token) w =
    Throw (Thrown "No user with the corresponding token exists") /\
  kind_of (Thrown "No user with the corresponding token exists") = Some AccountGone.
Proof.
  intros Hv Hu.
  pose proof (isAuthenticated_after_verify token w p Hv) as Hrun.
  rewrite Hu in Hrun. unfold result. rewrite Hrun. split; reflexivity.
Qed.

(** Deleting an account makes its identity unresolvable. *)
Lemma destroy_removes (userId : Z) (w : World) :
  result (UserRepository.destroy userId) w = Return true /\
  find (fun u => user_id u =? userId)
       (Users (world_after (UserRepository.destroy userId) w)) = None.
Proof.
  split; [reflexivity|].
  unfold world_after, UserRepository.destroy, try_catch, bind, Sequelize.User_destroy.
  cbn [snd Users]. induction (Users w) as [|u us IH]; simpl; [reflexivity|].
  destruct (user_id u =? userId) eqn:E; simpl; [exact IH|].
  rewrite E. exact IH.
Qed.

(** When verification throws, [isAuthenticated] throws the same error. *)
Lemma isAuthenticated_verify_throws (token : Token) (w : World) (e : Error) :
  result (UserService.verifyToken token) w = Throw e ->
  result (UserService.isAuthenticated token) w = Throw e.
Proof.
  unfold result, UserService.isAuthenticated, try_catch at 1, bind at 1.
  destruct (UserService.verifyToken token w) as [[p|e'] w'] eqn:Hrun; simpl.
  - discriminate.
  - intros [= ->]. reflexivity.
Qed.

(** The library never throws an object literal. *)
Lemma verifyToken_never_Thrown (token : Token) (w : World) (s : string) :
  result (UserService.verifyToken token) w <> Throw (Thrown s).
Proof.
  intros He. apply verifyToken_Throw in He. discriminate.
Qed.

(** What the lookup of the account throws is no object literal either. *)
Lemma getById_never_Thrown (key : option Value) (w : World) (s : string) :
  result (UserRepository.getById key) w <> Throw (Thrown s).
Proof.
  unfold result, UserRepository.getById, try_catch, bind,
    Sequelize.User_findByPk_email_id.
  destruct key as [[| | | s' |]|]; cbn; try discriminate.
  destruct (select_by_string s' (Users w)); cbn; discriminate.
Qed.

(** What [isAuthenticated] does with a verified payload that is not the
    object of the four claims: a falsy one takes the branch [if (!response)];
    a truthy one goes on to the lookup with whatever its [id] is. *)
Lemma isAuthenticated_after_other (token : Token) (w : World) (v : Value) :
  result (UserService.verifyToken token) w = Return (Other v) ->
  (truthy v = false ->
   UserService.isAuthenticated token w =
   (Throw (Thrown "Invalid token"),
    world_after (console_log "Something went wrong in the auth process") w)) /\
  (truthy v = true ->
   result (UserService.isAuthenticated token) w <> Throw (Thrown "Invalid token")).
Proof.
  intros Hv. apply verifyToken_Return_Other in Hv as (Hrun & _).
  split; intros Ht.
  - unfold UserService.isAuthenticated, try_catch, bind. rewrite Hrun.
    change (truthy (Other v)) with (truthy v). rewrite Ht. reflexivity.
  - pose proof (getById_never_Thrown (property "id" v) w "Invalid token") as Hlookup.
    unfold result in *. unfold UserService.isAuthenticated, try_catch, bind.
    rewrite Hrun. change (truthy (Other v)) with (truthy v). rewrite Ht.
    cbn [negb ret decoded_id].
    destruct (UserRepository.getById (property "id" v) w) as [[[user|]|e] w'];
      cbn in *; congruence.
Qed.

(** C9 (as amended). In [isAuthenticated] the branch [if (!response)] that
    throws 'Invalid token' is taken exactly when [verifyToken] returns a
    falsy payload, and that happens exactly for a token whose signature
    verifies under the configured key and whose payload is [0], [false] or
    the empty string.  For every other token, and so for every token that
    carries the four claims the service issues, the branch is not taken. *)
Theorem invalid_token_branch_taken_iff (token : Token) (w : World) :
  (result (UserService.isAuthenticated token) w = Throw (Thrown "Invalid token") <->
   exists d, result (UserService.verifyToken token) w = Return d /\ truthy d = false) /\
  ((exists d, result (UserService.verifyToken token) w = Return d /\ truthy d = false) <->
   JWT_KEY <> "" /\ signature_verifies token = true /\ falsy_payload token = true) /\
  (forall p s, token = Jws p s ->
     result (UserService.isAuthenticated token) w <> Throw (Thrown "Invalid token")).
Proof.
  assert (Hbranch :
    result (UserService.isAuthenticated token) w = Throw (Thrown "Invalid token") <->
    exists d, result (UserService.verifyToken token) w = Return d /\ truthy d = false).
  { split.
    - intros Hthrow.
      destruct (verifyToken_total token w) as [[e He]|[[p|v] Hd]].
      + rewrite (isAuthenticated_verify_throws token w e He) in Hthrow.
        injection Hthrow as ->. destruct (verifyToken_never_Thrown token w _ He).
      + unfold result in Hthrow.
        rewrite (isAuthenticated_after_verify token w p Hd) in Hthrow.
        destruct (find _ (Users w)); discriminate.
      + exists (Other v). split; [exact Hd|].
        change (truthy v = false).
        destruct (truthy v) eqn:Ht; [|reflexivity].
        destruct (proj2 (isAuthenticated_after_other token w v Hd) Ht Hthrow).
    - intros ([p|v] & Hd & Hfalsy); [discriminate|].
      unfold result.
      rewrite (proj1 (isAuthenticated_after_other token w v Hd) Hfalsy). reflexivity. }
  split; [exact Hbranch|]. split.
  - split.
    + intros ([p|v] & Hd & Hfalsy); [discriminate|].
      destruct (verifyToken_Return_Other token w v Hd)
        as (_ & Hkey & Hnull & alg & -> & Hsig & Halg).
      split; [exact Hkey|]. split.
      * unfold signature_verifies. rewrite Halg, String.eqb_refl.
        destruct (String.eqb_spec (HMAC alg JWT_KEY v) ""); [contradiction|reflexivity].
      * destruct v as [|[|]|z|s|fields]; cbn in Hfalsy; try discriminate.
        -- contradiction.
        -- reflexivity.
        -- destruct (Z.eqb_spec z 0); [subst; reflexivity|discriminate].
        -- destruct (String.eqb_spec s ""); [subst; reflexivity|discriminate].
    + intros (Hkey & Hsig & Hfalsy).
      destruct token as [|raw|payload signature|message|alg payload signature];
        try discriminate.
      unfold signature_verifies in Hsig. apply andb_true_iff in Hsig as [Hsig Hmac].
      apply andb_true_iff in Hsig as [Hsome Halg].
      exists (Other payload). unfold result.
      rewrite verifyToken_run. unfold jwt.verify.
      destruct (String.eqb_spec JWT_KEY ""); [contradiction|].
      destruct (String.eqb signature ""); [discriminate|].
      rewrite Halg, Hmac. cbn [negb].
      destruct payload as [|[|]|[| |]|[|]|]; try discriminate; split; reflexivity.
  - intros p s -> Hthrow. apply Hbranch in Hthrow as ([q|v] & Hd & Hfalsy);
      [discriminate|].
    destruct (verifyToken_Return_Other _ w v Hd) as (_ & _ & _ & alg & Ht & _).
    discriminate.
Qed.

(** ** Issuing and verifying tokens *)

Lemma createToken_run (c : Claims) (w : World) :
  JWT_KEY <> "" ->
  UserService.createToken c w =
  (let payload := mkPayload (claim_email c) (claim_id c) (jwt.clockTimestamp w)
                            (jwt.clockTimestamp w + 86400) in
   (Return (Jws payload (HS256 JWT_KEY payload)), w)).
Proof.
  intros Hkey. unfold UserService.createToken, try_catch, jwt.sign.
  destruct (String.eqb_spec JWT_KEY ""); [contradiction|reflexivity].
Qed.

(** The run of [verifyToken] on a JWS that the key signed over the four
    claims. *)
Lemma verifyToken_signed_claims (p : Payload) (w : World) :
  JWT_KEY <> "" ->
  UserService.verifyToken (Jws p (HS256 JWT_KEY p)) w =
  if exp p <=? jwt.clockTimestamp w
  then (Throw (TokenExpiredError "jwt expired"),
        world_after (console_log_error "Something went wrong in token validation"
                                       (TokenExpiredError "jwt expired")) w)
  else (Return (Object p), w).
Proof.
  intros Hkey. unfold UserService.verifyToken, try_catch, jwt.verify.
  destruct (String.eqb_spec JWT_KEY ""); [contradiction|].
  rewrite String.eqb_refl. cbn.
  destruct (exp p <=? jwt.clockTimestamp w); reflexivity.
Qed.

(** The run of [verifyToken] on a JWS that the key signed, under any of the
    three accepted algorithms, over an object with neither [nbf] nor [exp]:
    it is accepted at any time. *)
Lemma verifyToken_signed_object (alg : string) (fields : list (string * Value)) (w : World) :
  JWT_KEY <> "" ->
  In alg jwt.HS_ALGS ->
  HMAC alg JWT_KEY (VObj fields) <> "" ->
  assoc "nbf" fields = None ->
  assoc "exp" fields = None ->
  UserService.verifyToken (Compact alg (VObj fields) (HMAC alg JWT_KEY (VObj fields))) w =
  (Return (Other (VObj fields)), w).
Proof.
  intros Hkey Halg Hsig Hnbf Hexp.
  assert (Hin : existsb (String.eqb alg) jwt.HS_ALGS = true).
  { apply existsb_exists. exists alg. split; [exact Halg|apply String.eqb_refl]. }
  rewrite verifyToken_run. unfold jwt.verify, jwt.validate.
  destruct (String.eqb_spec JWT_KEY ""); [contradiction|].
  destruct (String.eqb_spec (HMAC alg JWT_KEY (VObj fields)) ""); [contradiction|].
  rewrite Hin, String.eqb_refl. cbn [negb property]. rewrite Hnbf, Hexp. reflexivity.
Qed.

(** C4. For every claims payload [c], a token freshly issued from [c] and
    verified before its expiry (one day after issuance) is accepted, and the
    decoded payload carries exactly the identity and the email of [c]; it
    carries [iat] and [exp] besides. The signing key must be configured. *)
Theorem verifyToken_createToken (c : Claims) (w1 w2 : World) :
  JWT_KEY <> "" ->
  jwt.clockTimestamp w2 < jwt.clockTimestamp w1 + 86400 ->
  exists token p,
    UserService.createToken c w1 = (Return token, w1) /\
    UserService.verifyToken token w2 = (Return (Object p), w2) /\
    claims_of p = c /\
    iat p = jwt.clockTimestamp w1 /\
    exp p = jwt.clockTimestamp w1 + 86400.
Proof.
  intros Hkey Hfresh.
  eexists. eexists. split; [apply (createToken_run c w1 Hkey)|].
  cbv zeta. split.
  - rewrite (verifyToken_signed_claims _ w2 Hkey). cbn [exp].
    destruct (Z.leb_spec (jwt.clockTimestamp w1 + 86400) (jwt.clockTimestamp w2));
      [lia|reflexivity].
  - destruct c; repeat split.
Qed.

(** C5 (as amended). For every token: when the decoder makes something of it
    or finds it no JWS at all, and its signature is not the one the service
    key gives, [verifyToken] throws a [JsonWebTokenError] (kind
    InvalidToken); when its header announces a JWT and its payload is not
    JSON, [verifyToken] throws the [SyntaxError] of the decoder as it is,
    which is of no kind; when the clock is at or past the expiry it encodes,
    [verifyToken] does not succeed, and for a token that is otherwise
    authentic and already active it throws [TokenExpiredError] (kind
    ExpiredToken). *)
Theorem verifyToken_rejects (token : Token) (w : World) :
  (decoder_raises token = false ->
   signature_verifies token = false ->
   exists msg,
     result (UserService.verifyToken token) w = Throw (JsonWebTokenError msg) /\
     kind_of (JsonWebTokenError msg) = Some InvalidToken) /\
  (forall message,
     token = Unparsable message ->
     result (UserService.verifyToken token) w = Throw (SyntaxError message) /\
     kind_of (SyntaxError message) = None) /\
  (forall expiry,
     encoded_expiry token = Some expiry ->
     expiry <= jwt.clockTimestamp w ->
     (forall d, result (UserService.verifyToken token) w <> Return d) /\
     (signature_verifies token = true ->
      JWT_KEY <> "" ->
      already_active token (jwt.clockTimestamp w) = true ->
      result (UserService.verifyToken token) w = Throw (TokenExpiredError "jwt expired") /\
      kind_of (TokenExpiredError "jwt expired") = Some ExpiredToken)).
Proof.
  unfold result. rewrite verifyToken_run. unfold jwt.verify.
  destruct token as [|raw|payload signature|message|alg payload signature];
    cbn -[existsb jwt.validate].
  - split; [eauto|]. split; discriminate.
  - split; [eauto|]. split; discriminate.
  - split; [|split; [discriminate|]].
    + intros _ ->. destruct (String.eqb JWT_KEY ""); cbn; eauto.
    + intros expiry [= <-] Hpast.
      destruct (Z.leb_spec (exp payload) (jwt.clockTimestamp w)); [|lia].
      split.
      * intros d.
        destruct (String.eqb JWT_KEY ""); cbn; [discriminate|].
        destruct (String.eqb signature (HS256 JWT_KEY payload)); cbn; discriminate.
      * intros -> Hkey _.
        destruct (String.eqb_spec JWT_KEY ""); [contradiction|cbn; auto].
  - split; [discriminate|]. split; [|discriminate].
    intros m [= ->]. split; reflexivity.
  - split; [|split; [discriminate|]].
    + destruct (String.eqb JWT_KEY ""), (String.eqb signature ""),
        (existsb (String.eqb alg) jwt.HS_ALGS),
        (String.eqb signature (HMAC alg JWT_KEY payload));
        cbn; intros _ Hsig; try discriminate; eauto.
    + intros expiry Hexp Hpast.
      assert (Hprop : property "exp" payload = Some (VNum expiry)).
      { destruct (property "exp" payload) as [[| | e | |]|]; try discriminate.
        injection Hexp as ->. reflexivity. }
      assert (Hnull : payload <> VNull) by (intros ->; discriminate).
      assert (Hvalidate :
        (forall d, fst (jwt.validate payload w) <> Return d) /\
        (already_active (Compact alg payload signature) (jwt.clockTimestamp w) = true ->
         jwt.validate payload w = (Throw (TokenExpiredError "jwt expired"), w))).
      { unfold jwt.validate, already_active. rewrite Hprop.
        destruct (Z.leb_spec expiry (jwt.clockTimestamp w)); [|lia].
        destruct payload; try contradiction;
          (destruct (property "nbf" _) as [[| | nbf | |]|];
           [ | | destruct (Z.ltb_spec (jwt.clockTimestamp w) nbf);
                 destruct (Z.leb_spec nbf (jwt.clockTimestamp w)); try lia | | | ];
           split; try discriminate; try reflexivity; intros; discriminate). }
      destruct Hvalidate as [Hnever Hexpired]. split.
      * intros d. specialize (Hnever d).
        destruct (String.eqb JWT_KEY ""), (String.eqb signature ""),
          (existsb (String.eqb alg) jwt.HS_ALGS),
          (String.eqb signature (HMAC alg JWT_KEY payload));
          cbn -[jwt.validate]; try discriminate.
        destruct (jwt.validate payload w) as [[d'|e] w']; cbn in *; congruence.
      * intros Hsig Hkey Hactive.
        destruct (String.eqb_spec JWT_KEY ""); [contradiction|].
        apply andb_true_iff in Hsig as [Hsig Hmac].
        apply andb_true_iff in Hsig as [Hsome Halg].
        destruct (String.eqb signature ""); [discriminate|].
        rewrite Halg, Hmac. cbn [negb].
        rewrite (Hexpired Hactive). cbn. auto.
Qed.

(** ** Sign-in *)

(** No account has the email: the read of [user.password] crashes. *)
Lemma signIn_unknown_email (email plainPassword : string) (w : World) :
  find (fun u => String.eqb (user_email u) email) (Users w) = None ->
  UserService.signIn email plainPassword w =
  (Throw (TypeError "Cannot read properties of null (reading 'password')"),
   world_after (console_log "Something went wrong in the sign-in process") w).
Proof.
  intros Hnone.
  unfold UserService.signIn, try_catch, bind.
  rewrite getByEmail_run, Hnone. reflexivity.
Qed.

(** The account exists and the password does not verify against its hash. *)
Lemma signIn_wrong_password (email plainPassword : string) (w : World) (u : User) :
  find (fun u => String.eqb (user_email u) email) (Users w) = Some u ->
  bcrypt_compareSync plainPassword (user_password u) = false ->
  result (UserService.signIn email plainPassword) w = Throw (Thrown "Incorrect password") /\
  kind_of (Thrown "Incorrect password") = Some InvalidCredentials.
Proof.
  intros Hu Hpw. split; [|reflexivity].
  unfold result, UserService.signIn, try_catch, bind.
  rewrite getByEmail_run, Hu. cbn. rewrite Hpw. reflexivity.
Qed.

(** The account exists and the password verifies: the token carries exactly
    the identity and the email of the account. *)
Lemma signIn_issues_token (email plainPassword : string) (w : World) (u : User) :
  JWT_KEY <> "" ->
  find (fun u => String.eqb (user_email u) email) (Users w) = Some u ->
  bcrypt_compareSync plainPassword (user_password u) = true ->
  exists p,
    UserService.signIn email plainPassword w = (Return (Jws p (HS256 JWT_KEY p)), w) /\
    claims_of p = mkClaims (user_email u) (user_id u) /\
    exp p = jwt.clockTimestamp w + 86400.
Proof.
  intros Hkey Hu Hpw.
  exists (mkPayload (user_email u) (user_id u) (jwt.clockTimestamp w)
                    (jwt.clockTimestamp w + 86400)).
  split; [|split; reflexivity].
  unfold UserService.signIn, try_catch at 1, bind.
  rewrite getByEmail_run, Hu. cbn. rewrite Hpw. cbn.
  rewrite (createToken_run _ w Hkey). reflexivity.
Qed.

(** C2 (the case the code misses). Signing in with an email nobody has
    registered does not fail with a failure of kind AccountNotFound: the
    lookup yields [null], [user.password] raises a [TypeError], and the
    controller answers 500 with the message of that crash. *)
Theorem signIn_unknown_email_crashes :
  result (UserService.signIn "nobody@x.com" "pw123") empty_world =
    Throw (TypeError "Cannot read properties of null (reading 'password')") /\
  kind_of (TypeError "Cannot read properties of null (reading 'password')") = None /\
  result (UserController.signIn (mkRequest "nobody@x.com" "pw123" 0 NoToken)) empty_world =
    Return (mkResponse 500 false "Cannot read properties of null (reading 'password')"
                       (JObj []) (JStr "Authentication failed")).
Proof.
  repeat split.
Qed.

(** ** Registration *)

Lemma create_run (data : UserData) (w : World) :
  UserService.create data w =
  if existsb (fun u => String.eqb (user_email u) (data_email data)) (Users w)
  then
    (Throw (AppErrors "ServerError" "Something went wrong in the service layer"
                      "Logical issue found" 500),
     world_after (console_log "Something went wrong on repository layer" ;;;
                  console_log "Something went wrong in the service layer") w)
  else
    let user := mkUser (Users_autoIncrement w + 1) (data_email data)
                       (bcrypt_hashSync (data_password data) SALT) in
    (Return user,
     mkWorld (Users w ++ [user]) (Roles w) (User_Roles w)
             (Users_autoIncrement w + 1) (console w) (Date_now w)).
Proof.
  unfold UserService.create, UserRepository.create, try_catch, bind,
    Sequelize.User_create.
  destruct (existsb _ (Users w)); reflexivity.
Qed.


(** C8 (the case the code misses). The body the sign-up controller sends for
    a successful registration is the stored row itself: it has a [password]
    field, and that field holds the secret-hash. *)
Theorem create_response_exposes_hash :
  exists response,
    result (UserController.create (mkRequest "a@x.com" "pw123" 0 NoToken)) empty_world =
      Return response /\
    status response = 201 /\
    field "password" (data response) = Some (JStr (bcrypt_hashSync "pw123" SALT)) /\
    exposes_password (data response) = true.
Proof.
  eexists. repeat split.
Qed.

(** ** The admin check *)

Lemma isAdmin_run (userId : Z) (w : World) :
  UserService.isAdmin userId w =
  match find (fun u => user_id u =? userId) (Users w) with
  | Some user =>
      (Return match find (fun r => String.eqb (role_name r) "ADMIN") (Roles w) with
              | Some adminRole =>
                  Sequelize.edge (User_Roles w) (user_id user) (role_id adminRole)
              | None => false
              end, w)
  | None =>
      (Throw (TypeError "Cannot read properties of null (reading 'hasRole')"),
       world_after (console_log "Something went wrong on repository layer" ;;;
                    console_log "Something went wrong in service layer") w)
  end.
Proof.
  unfold UserService.isAdmin, UserRepository.isAdmin, try_catch, bind,
    Sequelize.User_findByPk, Sequelize.Role_findOne_name.
  destruct (find _ (Users w)); reflexivity.
Qed.

(** The account exists and the store has no role named 'ADMIN': the answer
    is [false] and nothing is thrown. *)
Lemma isAdmin_no_role (userId : Z) (w : World) (u : User) :
  find (fun u => user_id u =? userId) (Users w) = Some u ->
  find (fun r => String.eqb (role_name r) "ADMIN") (Roles w) = None ->
  UserService.isAdmin userId w = (Return false, w).
Proof.
  intros Hu Hr. rewrite isAdmin_run, Hu, Hr. reflexivity.
Qed.

(** The answer is [true] only when the join table has the edge between the
    account and the role named 'ADMIN'. *)
Lemma isAdmin_true_only_edge (userId : Z) (w : World) :
  result (UserService.isAdmin userId) w = Return true ->
  exists user adminRole,
    find (fun u => user_id u =? userId) (Users w) = Some user /\
    find (fun r => String.eqb (role_name r) "ADMIN") (Roles w) = Some adminRole /\
    Sequelize.edge (User_Roles w) (user_id user) (role_id adminRole) = true.
Proof.
  unfold result. rewrite isAdmin_run.
  destruct (find _ (Users w)) as [user|]; [|discriminate].
  destruct (find _ (Roles w)) as [adminRole|]; [|discriminate].
  simpl. intros [= Hedge]. eauto.
Qed.

(** C7 (the case the code misses). Asking whether an identity that resolves
    to no account is an administrator does not fail with a failure of kind
    AccountNotFound: the lookup yields [null], the call [user.hasRole] raises
    a [TypeError], and the controller answers 500 with the message of that
    crash. *)
Theorem isAdmin_unknown_user_crashes :
  result (UserService.isAdmin 42) demo_world =
    Throw (TypeError "Cannot read properties of null (reading 'hasRole')") /\
  kind_of (TypeError "Cannot read properties of null (reading 'hasRole')") = None /\
  result (UserController.isAdmin (mkRequest "" "" 42 NoToken)) demo_world =
    Return (mkResponse 500 false "Cannot read properties of null (reading 'hasRole')"
                       (JObj []) (JStr "Authorization failed")).
Proof.
  repeat split.
Qed.

(** C10. The admin check takes an identity and no role name, and its answer
    depends on the join table only through the edges to the role named
    'ADMIN': two stores with the same accounts and the same roles that agree
    on those edges give the same answer, in the service and in the body the
    controller sends, whatever edges to other roles they hold. *)
Theorem isAdmin_only_ADMIN_role (req : Request) (w1 w2 : World) :
  Users w1 = Users w2 ->
  Roles w1 = Roles w2 ->
  (forall adminRole userId,
     find (fun r => String.eqb (role_name r) "ADMIN") (Roles w1) = Some adminRole ->
     Sequelize.edge (User_Roles w1) userId (role_id adminRole) =
     Sequelize.edge (User_Roles w2) userId (role_id adminRole)) ->
  result (UserService.isAdmin (body_id req)) w1 =
  result (UserService.isAdmin (body_id req)) w2 /\
  result (UserController.isAdmin req) w1 = result (UserController.isAdmin req) w2.
Proof.
  intros HU HR HE.
  assert (Hsvc : result (UserService.isAdmin (body_id req)) w1 =
                 result (UserService.isAdmin (body_id req)) w2).
  { unfold result. rewrite !isAdmin_run, <- HU, <- HR.
    destruct (find _ (Users w1)) as [user|]; [|reflexivity].
    destruct (find _ (Roles w1)) as [adminRole|] eqn:Hrole; [|reflexivity].
    simpl. rewrite (HE adminRole (user_id user) eq_refl). reflexivity. }
  split; [exact Hsvc|].
  unfold result in *. unfold UserController.isAdmin, try_catch, bind.
  destruct (UserService.isAdmin (body_id req) w1) as [[b1|e1] w1'];
    destruct (UserService.isAdmin (body_id req) w2) as [[b2|e2] w2'];
    simpl in *; congruence.
Qed.

End Properties.

(** * The properties on the concrete configuration *)

(** C1, as the specification states it, fails: Alice's token is accepted and
    what comes back is [true], which carries neither her identity nor her
    email. *)
Lemma isAuthenticated_summary_counterexample :
  result (@UserService.verifyToken demo alice_token) demo_world =
    Return (Object alice_payload) /\
  find (fun u => user_id u =? payload_id alice_payload) (Users demo_world) = Some alice /\
  ~ exists r,
      result (@UserService.isAuthenticated demo alice_token) demo_world = Return r /\
      carries_identity_and_email (toJSON r) (user_id alice) (user_email alice).
Proof.
  split; [reflexivity|]. split; [reflexivity|].
  intros (r & Hr & Hid & _).
  vm_compute in Hr. injection Hr as <-.
  vm_compute in Hid. discriminate Hid.
Qed.

Lemma isAuthenticated_returns_true_witness :
  result (@UserService.verifyToken demo alice_token) demo_world =
    Return (Object alice_payload) /\
  find (fun u => user_id u =? payload_id alice_payload) (Users demo_world) = Some alice /\
  @UserService.isAuthenticated demo alice_token demo_world = (Return true, demo_world).
Proof.
  split; [reflexivity|]. split; [reflexivity|].
  apply (@isAuthenticated_returns_true demo alice_token demo_world alice_payload alice);
    reflexivity.
Defined.


Lemma verifyToken_createToken_witness :
  @JWT_KEY demo <> "" /\
  jwt.clockTimestamp demo_world < jwt.clockTimestamp demo_world + 86400 /\
  exists token p,
    @UserService.createToken demo (mkClaims "a@x.com" 1) demo_world =
      (Return token, demo_world) /\
    @UserService.verifyToken demo token demo_world = (Return (Object p), demo_world) /\
    claims_of p = mkClaims "a@x.com" 1 /\
    iat p = jwt.clockTimestamp demo_world /\
    exp p = jwt.clockTimestamp demo_world + 86400.
Proof.
  assert (Hkey : @JWT_KEY demo <> "") by (simpl; discriminate).
  assert (Hfresh : jwt.clockTimestamp demo_world < jwt.clockTimestamp demo_world + 86400)
    by (vm_compute; reflexivity).
  split; [exact Hkey|]. split; [exact Hfresh|].
  exact (@verifyToken_createToken demo (mkClaims "a@x.com" 1) demo_world demo_world
           Hkey Hfresh).
Defined.

(** C5, as the specification states it, fails: a three-part token that
    announces a JWT and whose payload is not JSON cannot be parsed, and what
    [verifyToken] throws for it is the [SyntaxError] of [JSON.parse], not a
    [JsonWebTokenError], and of no kind in the taxonomy. *)
Lemma verifyToken_unparsable_counterexample :
  result (@UserService.verifyToken demo (Unparsable "Unexpected token o in JSON at position 1"))
         demo_world =
    Throw (SyntaxError "Unexpected token o in JSON at position 1") /\
  @signature_verifies demo (Unparsable "Unexpected token o in JSON at position 1") = false /\
  kind_of (SyntaxError "Unexpected token o in JSON at position 1") <> Some InvalidToken /\
  ~ exists msg,
      result (@UserService.verifyToken demo
                (Unparsable "Unexpected token o in JSON at position 1")) demo_world =
      Throw (JsonWebTokenError msg).
Proof.
  split; [reflexivity|]. split; [reflexivity|]. split; [discriminate|].
  intros (msg & Hmsg). vm_compute in Hmsg. discriminate Hmsg.
Qed.

(** A day later Alice's token is expired; a token signed with another key is
    invalid at any time; the decoder's own error comes through as it is. *)
Lemma verifyToken_rejects_witness :
  result (@UserService.verifyToken demo alice_token) (day_later demo_world) =
    Throw (TokenExpiredError "jwt expired") /\
  (exists msg,
    result (@UserService.verifyToken demo (Jws alice_payload "other/a@x.com")) demo_world =
      Throw (JsonWebTokenError msg)) /\
  result (@UserService.verifyToken demo (Unparsable "Unexpected end of JSON input"))
         demo_world = Throw (SyntaxError "Unexpected end of JSON input").
Proof.
  split; [|split].
  - destruct (@verifyToken_rejects demo alice_token (day_later demo_world))
      as (_ & _ & Hexp).
    destruct (Hexp 87400 eq_refl) as [_ Hthrow]; [vm_compute; discriminate|].
    apply Hthrow; [reflexivity|simpl; discriminate|reflexivity].
  - destruct (@verifyToken_rejects demo (Jws alice_payload "other/a@x.com") demo_world)
      as (Hinvalid & _).
    destruct (Hinvalid eq_refl eq_refl) as (msg & Hmsg & _). exists msg. exact Hmsg.
  - destruct (@verifyToken_rejects demo (Unparsable "Unexpected end of JSON input")
                demo_world) as (_ & Hraw & _).
    exact (proj1 (Hraw _ eq_refl)).
Defined.

Lemma isAuthenticated_account_gone_witness :
  result (@UserService.verifyToken demo alice_token) world_without_alice =
    Return (Object alice_payload) /\
  find (fun u => user_id u =? payload_id alice_payload) (Users world_without_alice) = None /\
  result (@UserService.isAuthenticated demo alice_token) world_without_alice =
    Throw (Thrown "No user with the corresponding token exists").
Proof.
  split; [reflexivity|]. split; [reflexivity|].
  apply (@isAuthenticated_account_gone demo alice_token world_without_alice alice_payload);
    reflexivity.
Defined.

(** C9, as the claim states it, fails: a token signed with the service key
    whose payload is [false] verifies, [verifyToken] returns [false], and
    [isAuthenticated] takes the branch and throws 'Invalid token'. *)
Lemma invalid_token_branch_counterexample :
  result (@UserService.verifyToken demo (Compact "HS256" (VBool false) "secret/HS256"))
         demo_world = Return (Other (VBool false)) /\
  truthy (Other (VBool false)) = false /\
  result (@UserService.isAuthenticated demo (Compact "HS256" (VBool false) "secret/HS256"))
         demo_world = Throw (Thrown "Invalid token").
Proof.
  repeat split.
Qed.

(** The branch is taken for a key-signed token that carries [0], and not for
    Alice's token. *)
Lemma invalid_token_branch_taken_iff_witness :
  result (@UserService.isAuthenticated demo (Compact "HS512" (VNum 0) "secret/HS512"))
         demo_world = Throw (Thrown "Invalid token") /\
  result (@UserService.isAuthenticated demo alice_token) demo_world <>
    Throw (Thrown "Invalid token").
Proof.
  split.
  - destruct (@invalid_token_branch_taken_iff demo
                (Compact "HS512" (VNum 0) "secret/HS512") demo_world)
      as (Hbranch & Hfalsy & _).
    apply Hbranch. apply Hfalsy. repeat split. simpl. discriminate.
  - destruct (@invalid_token_branch_taken_iff demo alice_token demo_world)
      as (_ & _ & Hissued).
    exact (Hissued alice_payload "secret/a@x.com" eq_refl).
Defined.

(** Bob's edge to the other role does not change what the admin check says
    about him. *)
Lemma isAdmin_only_ADMIN_role_witness :
  Users demo_world = Users demo_world' /\
  Roles demo_world = Roles demo_world' /\
  result (UserService.isAdmin 2) demo_world =
  result (UserService.isAdmin 2) demo_world'.
Proof.
  split; [reflexivity|]. split; [reflexivity|].
  apply (isAdmin_only_ADMIN_role (mkRequest "" "" 2 NoToken) demo_world demo_world');
    try reflexivity.
  intros adminRole userId Hrole. simpl in Hrole. injection Hrole as <-.
  unfold Sequelize.edge. cbn -[Z.eqb].
  change (2 =? 1) with false.
  rewrite andb_false_r. reflexivity.
Defined.

(** * Behaviour of the layers beyond the specification's claims *)

Section Behaviour.
Context `{Externals}.

(** ** Lists of rows *)

Lemma find_app_fresh {A} (f : A -> bool) (l : list A) (a : A) :
  existsb f l = false -> f a = true -> find f (l ++ [a]) = Some a.
Proof.
  induction l as [|x l IH]; simpl; intros Hl Ha.
  - rewrite Ha. reflexivity.
  - apply orb_false_iff in Hl as [Hx Hl]. rewrite Hx. auto.
Qed.

Lemma find_filter_other {A} (f g : A -> bool) (l : list A) :
  (forall a, f a = true -> g a = true) ->
  find f (filter g l) = find f l.
Proof.
  intros Hfg. induction l as [|x l IH]; simpl; [reflexivity|].
  destruct (g x) eqn:Hg; simpl.
  - destruct (f x); [reflexivity|exact IH].
  - destruct (f x) eqn:Hf; [|exact IH].
    rewrite (Hfg x Hf) in Hg. discriminate.
Qed.

Lemma filter_none {A} (f : A -> bool) (l : list A) :
  find f l = None -> filter (fun a => negb (f a)) l = l.
Proof.
  induction l as [|x l IH]; simpl; [reflexivity|].
  destruct (f x); simpl; [discriminate|].
  intros Hl. rewrite (IH Hl). reflexivity.
Qed.

Lemma find_id_of_In (u : User) (l : list User) :
  In u l -> exists u', find (fun x => user_id x =? user_id u) l = Some u'.
Proof.
  induction l as [|x l IH]; simpl; [contradiction|].
  intros [->|Hin].
  - rewrite Z.eqb_refl. eauto.
  - destruct (user_id x =? user_id u); eauto.
Qed.

(** ** Sign-in, case by case *)

(** A sign-in that returns did find an account, checked its password and
    signed a payload made of the account's email and id at the current
    second; it wrote nothing. *)
Lemma signIn_Return (email plainPassword : string) (w : World) (token : Token) :
  result (UserService.signIn email plainPassword) w = Return token ->
  exists u,
    find (fun u => String.eqb (user_email u) email) (Users w) = Some u /\
    bcrypt_compareSync plainPassword (user_password u) = true /\
    JWT_KEY <> "" /\
    let p := mkPayload (user_email u) (user_id u) (jwt.clockTimestamp w)
                       (jwt.clockTimestamp w + 86400) in
    token = Jws p (HS256 JWT_KEY p) /\
    UserService.signIn email plainPassword w = (Return token, w).
Proof.
  intros Hres.
  destruct (find (fun u => String.eqb (user_email u) email) (Users w)) as [u|] eqn:Hu.
  2:{ unfold result in Hres. rewrite (signIn_unknown_email _ _ _ Hu) in Hres.
      discriminate. }
  destruct (bcrypt_compareSync plainPassword (user_password u)) eqn:Hpw.
  2:{ destruct (signIn_wrong_password _ _ _ _ Hu Hpw) as [Hwrong _].
      rewrite Hwrong in Hres. discriminate. }
  assert (Hkey : JWT_KEY <> "").
  { intros Hk. revert Hres.
    unfold result, UserService.signIn, try_catch at 1, bind.
    rewrite getByEmail_run, Hu. cbn. rewrite Hpw. cbn.
    unfold UserService.createToken, try_catch, jwt.sign.
    rewrite Hk. cbn. discriminate. }
  assert (Hrun : UserService.signIn email plainPassword w =
                 (let p := mkPayload (user_email u) (user_id u) (jwt.clockTimestamp w)
                                     (jwt.clockTimestamp w + 86400) in
                  (Return (Jws p (HS256 JWT_KEY p)), w))).
  { unfold UserService.signIn, try_catch at 1, bind.
    rewrite getByEmail_run, Hu. cbn. rewrite Hpw. cbn.
    rewrite (createToken_run _ w Hkey). reflexivity. }
  unfold result in Hres. rewrite Hrun in Hres. cbn in Hres. injection Hres as <-.
  exists u. repeat split; auto.
Qed.

(** X1. When an account has the email and the password does not verify
    against its stored hash, [signIn] throws [{ error: 'Incorrect password' }]
    and issues no token; it writes the two lines "Password doesn't match" and
    "Something went wrong in the sign-in process" and nothing else. *)
Theorem signIn_rejects_wrong_password (email plainPassword : string) (w : World) (u : User) :
  find (fun u => String.eqb (user_email u) email) (Users w) = Some u ->
  bcrypt_compareSync plainPassword (user_password u) = false ->
  UserService.signIn email plainPassword w =
  (Throw (Thrown "Incorrect password"),
   world_after (console_log "Password doesn't match" ;;;
                console_log "Something went wrong in the sign-in process") w).
Proof.
  intros Hu Hpw.
  unfold UserService.signIn, try_catch, bind.
  rewrite getByEmail_run, Hu. cbn. rewrite Hpw. reflexivity.
Qed.

(** The run of a sign-in with the right password. *)
Lemma signIn_right_password_run (email plainPassword : string) (w : World) (u : User) :
  JWT_KEY <> "" ->
  find (fun u => String.eqb (user_email u) email) (Users w) = Some u ->
  bcrypt_compareSync plainPassword (user_password u) = true ->
  UserService.signIn email plainPassword w =
  (let p := mkPayload (user_email u) (user_id u) (jwt.clockTimestamp w)
                      (jwt.clockTimestamp w + 86400) in
   (Return (Jws p (HS256 JWT_KEY p)), w)).
Proof.
  intros Hkey Hu Hpw.
  unfold UserService.signIn, try_catch at 1, bind.
  rewrite getByEmail_run, Hu. cbn. rewrite Hpw. cbn.
  rewrite (createToken_run _ w Hkey). reflexivity.
Qed.

(** X2. When an account has the email, the password verifies and a signing
    key is configured, [signIn] returns a token signed with that key whose
    payload is the account's email and id, issued at the current second and
    expiring 86400 seconds later; the token verifies at once and the world is
    left as it was. *)
Theorem signIn_accepts_right_password (email plainPassword : string) (w : World) (u : User) :
  JWT_KEY <> "" ->
  find (fun u => String.eqb (user_email u) email) (Users w) = Some u ->
  bcrypt_compareSync plainPassword (user_password u) = true ->
  let p := mkPayload (user_email u) (user_id u) (jwt.clockTimestamp w)
                     (jwt.clockTimestamp w + 86400) in
  UserService.signIn email plainPassword w = (Return (Jws p (HS256 JWT_KEY p)), w) /\
  UserService.verifyToken (Jws p (HS256 JWT_KEY p)) w = (Return (Object p), w).
Proof.
  intros Hkey Hu Hpw p. split.
  - exact (signIn_right_password_run email plainPassword w u Hkey Hu Hpw).
  - rewrite (verifyToken_signed_claims p w Hkey). cbn [exp p].
    destruct (Z.leb_spec (jwt.clockTimestamp w + 86400) (jwt.clockTimestamp w));
      [lia|reflexivity].
Qed.

(** X3. Sign-up followed by sign-in: when the email is not registered yet,
    the key is configured and bcrypt verifies a password against its own
    hash, [create] with an email and a password followed by [signIn] with the
    same two returns a token that carries the id and the email of the account
    just created. *)
Theorem create_then_signIn (data : UserData) (w : World) :
  JWT_KEY <> "" ->
  bcrypt_compareSync (data_password data) (bcrypt_hashSync (data_password data) SALT) = true ->
  existsb (fun u => String.eqb (user_email u) (data_email data)) (Users w) = false ->
  exists user p,
    result (user <- UserService.create data ;;
            token <- UserService.signIn (data_email data) (data_password data) ;;
            ret (user, token)) w = Return (user, Jws p (HS256 JWT_KEY p)) /\
    claims_of p = mkClaims (user_email user) (user_id user) /\
    user_email user = data_email data.
Proof.
  intros Hkey Hbcrypt Hfresh.
  set (user := mkUser (Users_autoIncrement w + 1) (data_email data)
                      (bcrypt_hashSync (data_password data) SALT)).
  set (w' := mkWorld (Users w ++ [user]) (Roles w) (User_Roles w)
                     (Users_autoIncrement w + 1) (console w) (Date_now w)).
  assert (Hfind : find (fun u => String.eqb (user_email u) (data_email data)) (Users w')
                  = Some user).
  { apply find_app_fresh; [exact Hfresh|]. apply String.eqb_refl. }
  exists user.
  exists (mkPayload (user_email user) (user_id user) (jwt.clockTimestamp w')
                    (jwt.clockTimestamp w' + 86400)).
  split; [|split; reflexivity].
  unfold result, bind at 1. rewrite create_run, Hfresh. cbv zeta.
  fold user. fold w'. unfold bind.
  rewrite (signIn_right_password_run _ _ w' user Hkey Hfind Hbcrypt).
  reflexivity.
Qed.

(** X4. Sign-in followed by session validation: a token that [signIn] has
    returned is accepted by [isAuthenticated] in every world that still has
    the same accounts and whose clock is less than 86400 seconds past the
    second of issuance. *)
Theorem signIn_then_isAuthenticated (email plainPassword : string) (w w2 : World) (token : Token) :
  result (UserService.signIn email plainPassword) w = Return token ->
  Users w2 = Users w ->
  jwt.clockTimestamp w2 < jwt.clockTimestamp w + 86400 ->
  UserService.isAuthenticated token w2 = (Return true, w2).
Proof.
  intros Hin Husers Hfresh.
  destruct (signIn_Return _ _ _ _ Hin) as (u & Hu & _ & Hkey & Htoken & _).
  cbv zeta in Htoken. subst token.
  set (p := mkPayload (user_email u) (user_id u) (jwt.clockTimestamp w)
                      (jwt.clockTimestamp w + 86400)).
  assert (Hv : result (UserService.verifyToken (Jws p (HS256 JWT_KEY p))) w2 =
               Return (Object p)).
  { unfold result. rewrite (verifyToken_signed_claims p w2 Hkey). cbn [exp p].
    destruct (Z.leb_spec (jwt.clockTimestamp w + 86400) (jwt.clockTimestamp w2));
      [lia|reflexivity]. }
  rewrite (isAuthenticated_after_verify _ _ _ Hv).
  destruct (find_id_of_In u (Users w2)) as [u' Hu'].
  { rewrite Husers. exact (proj1 (find_some _ _ Hu)). }
  cbn [payload_id p]. rewrite Hu'. reflexivity.
Qed.

(** X5. A session token stops being accepted one day after sign-in: from
    86400 seconds past the second of issuance on, [isAuthenticated] rejects a
    token that [signIn] has returned with [TokenExpiredError], whether the
    account still exists or not. *)
Theorem signIn_token_expires (email plainPassword : string) (w w2 : World) (token : Token) :
  result (UserService.signIn email plainPassword) w = Return token ->
  jwt.clockTimestamp w + 86400 <= jwt.clockTimestamp w2 ->
  result (UserService.isAuthenticated token) w2 = Throw (TokenExpiredError "jwt expired").
Proof.
  intros Hin Hlate.
  destruct (signIn_Return _ _ _ _ Hin) as (u & _ & _ & Hkey & Htoken & _).
  cbv zeta in Htoken. subst token.
  apply isAuthenticated_verify_throws.
  unfold result. rewrite (verifyToken_signed_claims _ w2 Hkey). cbn [exp].
  destruct (Z.leb_spec (jwt.clockTimestamp w + 86400) (jwt.clockTimestamp w2));
    [reflexivity|lia].
Qed.

(** ** Deleting accounts *)

(** Verification reads the clock and nothing else. *)
Lemma verifyToken_reads_clock (token : Token) (w1 w2 : World) :
  Date_now w1 = Date_now w2 ->
  result (UserService.verifyToken token) w1 = result (UserService.verifyToken token) w2.
Proof.
  intros Hclock.
  assert (Hverify : fst (jwt.verify token JWT_KEY w1) = fst (jwt.verify token JWT_KEY w2)).
  { unfold jwt.verify, jwt.validate, jwt.clockTimestamp. rewrite Hclock.
    destruct token as [|raw|payload signature|message|alg payload signature];
      try reflexivity.
    - destruct (String.eqb JWT_KEY ""); [reflexivity|].
      destruct (String.eqb signature (HS256 JWT_KEY payload)); cbn; [|reflexivity].
      destruct (exp payload <=? Date_now w2 / 1000); reflexivity.
    - destruct (String.eqb JWT_KEY ""); [reflexivity|].
      destruct (String.eqb signature ""); [reflexivity|].
      destruct (existsb (String.eqb alg) jwt.HS_ALGS); cbn -[property]; [|reflexivity].
      destruct (String.eqb signature (HMAC alg JWT_KEY payload)); cbn -[property];
        [|reflexivity].
      destruct payload; try reflexivity;
        (destruct (property "nbf" _) as [[| | nbf | |]|];
         [ | | destruct (Date_now w2 / 1000 <? nbf) | | | ];
         try reflexivity;
         (destruct (property "exp" _) as [[| | expiry | |]|];
          [ | | destruct (expiry <=? Date_now w2 / 1000) | | | ];
          reflexivity)). }
  unfold result. rewrite !verifyToken_run, Hverify.
  destruct (fst (jwt.verify token JWT_KEY w2)); reflexivity.
Qed.

(** X6. Revocation by deletion: once the repository has destroyed the account
    a valid token names, [isAuthenticated] rejects that token with [{ error:
    'No user with the corresponding token exists' }], although the token
    itself still verifies. *)
Theorem destroy_revokes_token (token : Token) (w : World) (p : Payload) :
  result (UserService.verifyToken token) w = Return (Object p) ->
  result (UserRepository.destroy (payload_id p) ;;;
          UserService.isAuthenticated token) w =
    Throw (Thrown "No user with the corresponding token exists") /\
  result (UserRepository.destroy (payload_id p) ;;;
          UserService.verifyToken token) w = Return (Object p).
Proof.
  intros Hv.
  set (w' := world_after (UserRepository.destroy (payload_id p)) w).
  assert (Hv' : result (UserService.verifyToken token) w' = Return (Object p)).
  { rewrite <- Hv. apply verifyToken_reads_clock. reflexivity. }
  assert (Hrun : UserRepository.destroy (payload_id p) w = (Return true, w'))
    by reflexivity.
  split.
  - unfold result, bind. rewrite Hrun.
    rewrite (isAuthenticated_after_verify token w' p Hv').
    destruct (destroy_removes (payload_id p) w) as [_ Hgone].
    fold w' in Hgone. rewrite Hgone. reflexivity.
  - unfold result, bind. rewrite Hrun. exact Hv'.
Qed.

(** Rows a filter keeps are counted as before. *)
Lemma existsb_filter_other {A} (f g : A -> bool) (l : list A) :
  (forall a, f a = true -> g a = true) ->
  existsb f (filter g l) = existsb f l.
Proof.
  intros Hfg. induction l as [|x l IH]; simpl; [reflexivity|].
  destruct (g x) eqn:Hg; simpl.
  - rewrite IH. reflexivity.
  - destruct (f x) eqn:Hf; [|exact IH].
    rewrite (Hfg x Hf) in Hg. discriminate.
Qed.

Lemma existsb_find_none {A} (f : A -> bool) (l : list A) :
  find f l = None -> existsb f l = false.
Proof.
  induction l as [|x l IH]; simpl; [reflexivity|].
  destruct (f x); [discriminate|exact IH].
Qed.

(** X7. [destroy] removes the account with the given id and no other: every
    other id resolves afterwards to what it resolved to before and has the
    membership edges it had, whether or not the store removes the edges of
    the deleted account with it; the roles and the console are untouched. *)
Theorem destroy_leaves_other_accounts (userId other : Z) (w : World) :
  other <> userId ->
  let w' := world_after (UserRepository.destroy userId) w in
  result (UserRepository.getById (Some (VNum other))) w' =
  result (UserRepository.getById (Some (VNum other))) w /\
  (forall roleId,
     Sequelize.edge (User_Roles w') other roleId =
     Sequelize.edge (User_Roles w) other roleId) /\
  Roles w' = Roles w /\ console w' = console w.
Proof.
  intros Hneq w'. split; [|split; [|split; reflexivity]].
  - unfold result. rewrite !getById_run. cbn [fst].
    unfold w', world_after, UserRepository.destroy, try_catch, bind,
      Sequelize.User_destroy.
    cbn -[andb existsb].
    rewrite find_filter_other; [reflexivity|].
    intros u Hu. apply Z.eqb_eq in Hu.
    destruct (Z.eqb_spec (user_id u) userId); [congruence|reflexivity].
  - intros roleId.
    unfold w', world_after, UserRepository.destroy, try_catch, bind,
      Sequelize.User_destroy, Sequelize.edge.
    cbn -[andb existsb].
    destruct (User_Roles_onDelete_cascade && _); [|reflexivity].
    apply existsb_filter_other.
    intros e He. apply andb_true_iff in He as [He _]. apply Z.eqb_eq in He.
    destruct (Z.eqb_spec (fst e) userId); [congruence|reflexivity].
Qed.

(** X8. [destroy] does not tell whether anything was deleted: for an id that
    no account has it returns [true] all the same, throws nothing and leaves
    the world exactly as it was. *)
Theorem destroy_missing_account (userId : Z) (w : World) :
  find (fun u => user_id u =? userId) (Users w) = None ->
  UserRepository.destroy userId w = (Return true, w).
Proof.
  intros Hnone.
  unfold UserRepository.destroy, try_catch, bind, Sequelize.User_destroy. cbn.
  rewrite (filter_none _ _ Hnone), (existsb_find_none _ _ Hnone), andb_false_r.
  destruct w; reflexivity.
Qed.

(** ** What the read operations touch *)

Ltac fixed_lines :=
  repeat (apply Forall_cons; [unfold signIn_lines; cbn; auto 10|]); apply Forall_nil.

Lemma same_store_refl (w : World) : same_store w w.
Proof. repeat split. Qed.

Lemma logged_nothing (w : World) : logged w w [].
Proof. unfold logged. rewrite app_nil_r. reflexivity. Qed.

(** The run of a sign-in with a wrong password. *)
Lemma signIn_wrong_password_run (email plainPassword : string) (w : World) (u : User) :
  find (fun u => String.eqb (user_email u) email) (Users w) = Some u ->
  bcrypt_compareSync plainPassword (user_password u) = false ->
  UserService.signIn email plainPassword w =
  (Throw (Thrown "Incorrect password"),
   world_after (console_log "Password doesn't match" ;;;
                console_log "Something went wrong in the sign-in process") w).
Proof.
  intros Hu Hpw.
  unfold UserService.signIn, try_catch, bind.
  rewrite getByEmail_run, Hu. cbn. rewrite Hpw. reflexivity.
Qed.

(** The run of a sign-in with the right password when no key is set. *)
Lemma signIn_without_key_run (email plainPassword : string) (w : World) (u : User) :
  JWT_KEY = "" ->
  find (fun u => String.eqb (user_email u) email) (Users w) = Some u ->
  bcrypt_compareSync plainPassword (user_password u) = true ->
  UserService.signIn email plainPassword w =
  (Throw (JsError "secretOrPrivateKey must have a value"),
   world_after (console_log "Something went wrong in token creation" ;;;
                console_log "Something went wrong in the sign-in process") w).
Proof.
  intros Hkey Hu Hpw.
  unfold UserService.signIn, try_catch at 1, bind.
  rewrite getByEmail_run, Hu. cbn. rewrite Hpw. cbn.
  unfold UserService.createToken, try_catch, jwt.sign. rewrite Hkey. reflexivity.
Qed.

(** Every run of [signIn]: what it ends with, the store as it was, and the
    lines it wrote. *)
Lemma signIn_frame (email plainPassword : string) (w : World) :
  let w' := world_after (UserService.signIn email plainPassword) w in
  same_store w w' /\
  exists added, logged w w' added /\ Forall (fun line => In line signIn_lines) added /\
    ((exists token, result (UserService.signIn email plainPassword) w = Return token) \/
     result (UserService.signIn email plainPassword) w =
       Throw (TypeError "Cannot read properties of null (reading 'password')") \/
     result (UserService.signIn email plainPassword) w = Throw (Thrown "Incorrect password") \/
     result (UserService.signIn email plainPassword) w =
       Throw (JsError "secretOrPrivateKey must have a value")).
Proof.
  unfold world_after, result.
  destruct (find (fun u => String.eqb (user_email u) email) (Users w)) as [u|] eqn:Hu.
  - destruct (bcrypt_compareSync plainPassword (user_password u)) eqn:Hpw.
    + destruct (String.eqb_spec JWT_KEY "") as [Hkey|Hkey].
      * rewrite (signIn_without_key_run _ _ _ _ Hkey Hu Hpw).
        split; [repeat split|].
        exists [("Something went wrong in token creation", None);
                ("Something went wrong in the sign-in process", None)].
        split; [unfold logged; cbn; rewrite <- app_assoc; reflexivity|].
        split; [fixed_lines|cbn; auto 10].
      * rewrite (signIn_right_password_run _ _ _ _ Hkey Hu Hpw). cbn.
        split; [apply same_store_refl|].
        exists []. split; [apply logged_nothing|]. split; [constructor|left; eauto].
    + rewrite (signIn_wrong_password_run _ _ _ _ Hu Hpw).
      split; [repeat split|].
      exists [("Password doesn't match", None);
              ("Something went wrong in the sign-in process", None)].
      split; [unfold logged; cbn; rewrite <- app_assoc; reflexivity|].
      split; [fixed_lines|cbn; auto 10].
  - rewrite (signIn_unknown_email _ _ _ Hu).
    split; [repeat split|].
    exists [("Something went wrong in the sign-in process", None)].
    split; [reflexivity|]. split; [fixed_lines|cbn; auto 10].
Qed.

(** The run of a session check on a token that does not verify. *)
Lemma isAuthenticated_verify_throws_run (token : Token) (w : World) (e : Error) :
  result (UserService.verifyToken token) w = Throw e ->
  UserService.isAuthenticated token w =
  (Throw e,
   world_after (console_log_error "Something went wrong in token validation" e ;;;
                console_log "Something went wrong in the auth process") w).
Proof.
  unfold result. intros He.
  unfold UserService.isAuthenticated, try_catch at 1, bind at 1.
  rewrite verifyToken_run in *.
  destruct (fst (jwt.verify token JWT_KEY w)) as [d|e']; cbn in *; [discriminate|].
  injection He as ->. reflexivity.
Qed.

Lemma library_error_no_status (e : Error) :
  library_error e = true -> error_statusCode e = None.
Proof. destruct e; cbn; (discriminate || reflexivity). Qed.

(** Every run of [isAuthenticated]: the store is left as it was, what is
    returned is [true], and what is thrown carries no status code. *)
Lemma isAuthenticated_cases (token : Token) (w : World) :
  same_store w (world_after (UserService.isAuthenticated token) w) /\
  match result (UserService.isAuthenticated token) w with
  | Return b => b = true
  | Throw e => error_statusCode e = None
  end.
Proof.
  unfold world_after, result.
  destruct (verifyToken_total token w) as [[e He]|[[p|v] Hd]].
  - rewrite (isAuthenticated_verify_throws_run _ _ _ He). cbn.
    split; [repeat split|]. apply library_error_no_status.
    exact (verifyToken_Throw _ _ _ He).
  - rewrite (isAuthenticated_after_verify _ _ _ Hd).
    destruct (find _ (Users w)); cbn; split; try reflexivity; repeat split.
  - destruct (truthy v) eqn:Ht.
    + apply verifyToken_Return_Other in Hd as (Hrun & _).
      unfold UserService.isAuthenticated, try_catch, bind. rewrite Hrun.
      change (truthy (Other v)) with (truthy v). rewrite Ht.
      unfold UserRepository.getById, try_catch, bind, Sequelize.User_findByPk_email_id.
      cbn [negb ret decoded_id].
      destruct (property "id" v) as [[| | userId | s |]|]; cbn;
        try (split; [repeat split|reflexivity]).
      * destruct (find _ (Users w)); cbn; split; try reflexivity; repeat split.
      * destruct (select_by_string s (Users w)) as [message|[row|]]; cbn;
          split; try reflexivity; repeat split.
    + rewrite (proj1 (isAuthenticated_after_other _ _ _ Hd) Ht). cbn.
      split; [repeat split|reflexivity].
Qed.


Lemma isAuthenticated_frame (token : Token) (w : World) :
  same_store w (world_after (UserService.isAuthenticated token) w).
Proof. exact (proj1 (isAuthenticated_cases token w)). Qed.

Lemma isAdmin_frame (userId : Z) (w : World) :
  same_store w (world_after (UserService.isAdmin userId) w).
Proof.
  unfold world_after. rewrite isAdmin_run.
  destruct (find _ (Users w)); repeat split.
Qed.

(** X9. Sign-in, session validation and the admin check are read-only: in
    every run, returning or throwing, the Users, Roles and membership tables,
    the id counter and the clock are afterwards what they were; only the
    console may have grown. *)
Theorem lookups_never_write (email plainPassword : string) (token : Token)
        (userId : Z) (w : World) :
  same_store w (world_after (UserService.signIn email plainPassword) w) /\
  same_store w (world_after (UserService.isAuthenticated token) w) /\
  same_store w (world_after (UserService.isAdmin userId) w).
Proof.
  split; [|split].
  - exact (proj1 (signIn_frame email plainPassword w)).
  - apply isAuthenticated_frame.
  - apply isAdmin_frame.
Qed.

(** X10. [signIn] never logs the password or the email: whatever they are,
    the console afterwards is the console before followed by lines taken from
    a fixed list of messages, none of which has an error object attached. A
    successful sign-in logs nothing. *)
Theorem signIn_logs_fixed_lines (email plainPassword : string) (w : World) :
  let w' := world_after (UserService.signIn email plainPassword) w in
  (exists added,
     logged w w' added /\ Forall (fun line => In line signIn_lines) added) /\
  ((exists token, result (UserService.signIn email plainPassword) w = Return token) ->
   console w' = console w).
Proof.
  intros w'. split.
  - destruct (signIn_frame email plainPassword w) as (_ & added & Hlog & Hlines & _).
    exists added. split; assumption.
  - intros [token Htoken].
    destruct (signIn_Return _ _ _ _ Htoken) as (u & _ & _ & _ & _ & Hrun).
    unfold w', world_after. rewrite Hrun. reflexivity.
Qed.

(** ** What the controllers answer *)

(** A controller around a service call whose errors carry no status code
    answers with its success status or with 500. *)
Lemma controller_answers {A} `{ToJSON A} (service : M A) (w : World)
      (ok : Z) (msg fallback : string) :
  (forall e, result service w = Throw e -> error_statusCode e = None) ->
  answers (try_catch
             (response <- service ;;
              ret (mkResponse ok true msg (toJSON response) (JObj [])))
             (fun error => ret (error_response error fallback))) w ok.
Proof.
  intros Hcodes. unfold answers, result, try_catch, bind in *.
  destruct (service w) as [[a|e] w']; cbn in *.
  - eexists. split; [reflexivity|]. left. split; reflexivity.
  - eexists. split; [reflexivity|]. right.
    unfold error_response. rewrite (Hcodes e eq_refl). repeat split.
Qed.

(** X11. The sign-in, session and admin controllers never throw and know two
    statuses only: 200 with [success: true], or 500 with [success: false] and
    [data: {}].  An unknown email, a wrong password, a missing, forged or
    expired token and an unknown id are all answered with 500, because no
    error these services throw carries a [statusCode]. *)
Theorem controllers_answer_200_or_500 (req : Request) (w : World) :
  answers (UserController.signIn req) w 200 /\
  answers (UserController.isAuthenticated req) w 200 /\
  answers (UserController.isAdmin req) w 200.
Proof.
  split; [|split].
  - apply controller_answers. intros e He.
    destruct (signIn_frame (body_email req) (body_password req) w)
      as (_ & added & _ & _ & [[token Ht]|[Ht|[Ht|Ht]]]);
      rewrite Ht in He; try discriminate; injection He as <-; reflexivity.
  - apply controller_answers. intros e He.
    pose proof (proj2 (isAuthenticated_cases (x_access_token req) w)) as Hc.
    rewrite He in Hc. exact Hc.
  - apply controller_answers. intros e He. unfold result in He.
    rewrite isAdmin_run in He.
    destruct (find _ (Users w)); [discriminate|].
    injection He as <-. reflexivity.
Qed.

(** X12. The sign-up and sign-in routes stop a request whose email or
    password is empty before any controller runs: the answer is 400
    'Validation failed', no account is created and nothing is logged. A
    request with both goes to the controller unchanged. *)
Theorem routes_require_email_and_password (req : Request) (w : World) :
  (body_email req = "" \/ body_password req = "" ->
   let rejected := mkResponse 400 false "Validation failed" (JObj [])
                              (JStr "Email or password missing in the request") in
   Routes.signup req w = (Return rejected, w) /\
   Routes.signin req w = (Return rejected, w)) /\
  (body_email req <> "" /\ body_password req <> "" ->
   Routes.signup req w = UserController.create req w /\
   Routes.signin req w = UserController.signIn req w).
Proof.
  unfold Routes.signup, Routes.signin, Routes.guarded,
    AuthRequestValidators.validateUserAuth, truthy, Truthy_string.
  split.
  - intros [He|Hp].
    + rewrite He. cbn. split; reflexivity.
    + rewrite Hp. cbn. rewrite orb_true_r. split; reflexivity.
  - intros [He Hp].
    destruct (String.eqb_spec (body_email req) ""); [contradiction|].
    destruct (String.eqb_spec (body_password req) ""); [contradiction|].
    cbn. split; reflexivity.
Qed.

(** X13. The admin route stops a request whose id is 0, which JavaScript
    takes for a missing id: the answer is 400 'Validation failed' whatever the
    store holds, and nothing is read or logged. Any other id goes to the
    controller. *)
Theorem isAdmin_route_requires_id (req : Request) (w : World) :
  (body_id req = 0 ->
   Routes.isAdmin req w =
   (Return (mkResponse 400 false "Validation failed" (JObj [])
                       (JStr "User ID not provided in the request")), w)) /\
  (body_id req <> 0 -> Routes.isAdmin req w = UserController.isAdmin req w).
Proof.
  unfold Routes.isAdmin, Routes.guarded,
    AuthRequestValidators.validateIsAdminRequest, truthy, Truthy_Z.
  split.
  - intros ->. reflexivity.
  - intros Hid. destruct (Z.eqb_spec (body_id req) 0); [contradiction|reflexivity].
Qed.

(** X14. [isAdmin] answers [true] exactly when an account has the id, a role
    named 'ADMIN' exists and the join table holds the edge between the two;
    for every id that an account has it returns a boolean, throws nothing and
    leaves the world as it was. *)
Theorem isAdmin_true_iff (userId : Z) (w : World) :
  (result (UserService.isAdmin userId) w = Return true <->
   exists user adminRole,
     find (fun u => user_id u =? userId) (Users w) = Some user /\
     find (fun r => String.eqb (role_name r) "ADMIN") (Roles w) = Some adminRole /\
     Sequelize.edge (User_Roles w) (user_id user) (role_id adminRole) = true) /\
  (forall user,
     find (fun u => user_id u =? userId) (Users w) = Some user ->
     exists b, UserService.isAdmin userId w = (Return b, w)).
Proof.
  split; [split|].
  - apply isAdmin_true_only_edge.
  - intros (user & adminRole & Hu & Hr & He).
    unfold result. rewrite isAdmin_run, Hu, Hr, He. reflexivity.
  - intros user Hu. rewrite isAdmin_run, Hu. eauto.
Qed.

(** X15. With no signing key configured the service issues and accepts
    nothing: no sign-in returns a token, no token verifies and no session
    check succeeds, whatever the credentials, the token and the store. *)
Theorem no_key_no_session (email plainPassword : string) (token : Token) (w : World) :
  JWT_KEY = "" ->
  (forall t, result (UserService.signIn email plainPassword) w <> Return t) /\
  (forall d, result (UserService.verifyToken token) w <> Return d) /\
  (forall b, result (UserService.isAuthenticated token) w <> Return b).
Proof.
  intros Hkey.
  assert (Hverify : forall d, result (UserService.verifyToken token) w <> Return d).
  { intros [p|v] Hd.
    - destruct (verifyToken_Return _ _ _ Hd) as (_ & _ & Hk & _). contradiction.
    - destruct (verifyToken_Return_Other _ _ _ Hd) as (_ & Hk & _). contradiction. }
  split; [|split; [exact Hverify|]].
  - intros t Ht. destruct (signIn_Return _ _ _ _ Ht) as (_ & _ & _ & Hk & _).
    contradiction.
  - intros b Hb.
    destruct (verifyToken_total token w) as [[e He]|[d Hd]].
    + rewrite (isAuthenticated_verify_throws _ _ _ He) in Hb. discriminate.
    + exact (Hverify d Hd).
Qed.

(** X16. Registering an email twice: when the first [create] succeeds, a
    second [create] with the same email, whatever its password, throws the
    catch-all [AppErrors] 'ServerError' with status 500 and the Users table
    keeps the single new row; the controller answers 500 'Something went
    wrong in the service layer' with [err: 'Logical issue found']. *)
Theorem create_twice (data data' : UserData) (w : World) :
  existsb (fun u => String.eqb (user_email u) (data_email data)) (Users w) = false ->
  data_email data' = data_email data ->
  let user := mkUser (Users_autoIncrement w + 1) (data_email data)
                     (bcrypt_hashSync (data_password data) SALT) in
  let w1 := world_after (UserService.create data) w in
  result (UserService.create data) w = Return user /\
  result (UserService.create data') w1 =
    Throw (AppErrors "ServerError" "Something went wrong in the service layer"
                     "Logical issue found" 500) /\
  Users (world_after (UserService.create data') w1) = (Users w ++ [user])%list /\
  result (UserController.create (mkRequest (data_email data') (data_password data')
                                           0 NoToken)) w1 =
    Return (mkResponse 500 false "Something went wrong in the service layer"
                       (JObj []) (JStr "Logical issue found")).
Proof.
  intros Hfresh Hsame user w1.
  assert (Hrun : UserService.create data w =
                 (Return user,
                  mkWorld (Users w ++ [user]) (Roles w) (User_Roles w)
                          (Users_autoIncrement w + 1) (console w) (Date_now w))).
  { rewrite create_run, Hfresh. reflexivity. }
  assert (Hdup : existsb (fun u => String.eqb (user_email u) (data_email data'))
                         (Users w1) = true).
  { unfold w1, world_after. rewrite Hrun. cbn.
    rewrite existsb_app. cbn. rewrite Hsame, String.eqb_refl.
    rewrite orb_true_r. reflexivity. }
  assert (Hrun' : UserService.create data' w1 =
                  (Throw (AppErrors "ServerError" "Something went wrong in the service layer"
                                    "Logical issue found" 500),
                   world_after (console_log "Something went wrong on repository layer" ;;;
                                console_log "Something went wrong in the service layer") w1)).
  { rewrite create_run, Hdup. reflexivity. }
  split; [unfold result; rewrite Hrun; reflexivity|].
  split; [unfold result; rewrite Hrun'; reflexivity|].
  split.
  - unfold world_after at 1. rewrite Hrun'. cbn.
    unfold w1, world_after. rewrite Hrun. reflexivity.
  - unfold result, UserController.create, try_catch at 1, bind at 1. cbn.
    replace (mkData (data_email data') (data_password data')) with data'
      by (destruct data'; reflexivity).
    rewrite Hrun'. reflexivity.
Qed.

(** X17. The sign-in controller tells an unknown email from a wrong
    password: both are answered with status 500, but for an unknown email the
    message is the text of the crash on [null], and for a wrong password it
    is 'Something went wrong'. *)
Theorem signIn_answers_tell_unknown_email (req1 req2 : Request) (w : World) (u : User) :
  find (fun u => String.eqb (user_email u) (body_email req1)) (Users w) = None ->
  find (fun u => String.eqb (user_email u) (body_email req2)) (Users w) = Some u ->
  bcrypt_compareSync (body_password req2) (user_password u) = false ->
  exists r1 r2,
    result (UserController.signIn req1) w = Return r1 /\
    result (UserController.signIn req2) w = Return r2 /\
    status r1 = 500 /\ status r2 = 500 /\
    message r1 = "Cannot read properties of null (reading 'password')" /\
    message r2 = "Something went wrong" /\
    r1 <> r2.
Proof.
  intros Hnone Hu Hpw.
  eexists. eexists.
  split; [|split].
  - unfold result, UserController.signIn, try_catch at 1, bind at 1.
    rewrite (signIn_unknown_email _ _ _ Hnone). reflexivity.
  - unfold result, UserController.signIn, try_catch at 1, bind at 1.
    rewrite (signIn_wrong_password_run _ _ _ _ Hu Hpw). reflexivity.
  - repeat split. discriminate.
Qed.

End Behaviour.

(** * The behaviour on the concrete configuration *)

Lemma signIn_rejects_wrong_password_witness :
  find (fun u => String.eqb (user_email u) "a@x.com") (Users demo_world) = Some alice /\
  @bcrypt_compareSync demo "wrong" (user_password alice) = false /\
  result (@UserService.signIn demo "a@x.com" "wrong") demo_world =
    Throw (Thrown "Incorrect password").
Proof.
  split; [reflexivity|]. split; [reflexivity|].
  unfold result.
  rewrite (@signIn_rejects_wrong_password demo "a@x.com" "wrong" demo_world alice
             eq_refl eq_refl).
  reflexivity.
Defined.

Lemma signIn_accepts_right_password_witness :
  @JWT_KEY demo <> "" /\
  find (fun u => String.eqb (user_email u) "a@x.com") (Users demo_world) = Some alice /\
  @bcrypt_compareSync demo "pw123" (user_password alice) = true /\
  @UserService.signIn demo "a@x.com" "pw123" demo_world = (Return alice_token, demo_world).
Proof.
  assert (Hkey : @JWT_KEY demo <> "") by (simpl; discriminate).
  split; [exact Hkey|]. split; [reflexivity|]. split; [reflexivity|].
  exact (proj1 (@signIn_accepts_right_password demo "a@x.com" "pw123" demo_world alice
                  Hkey eq_refl eq_refl)).
Defined.

Lemma create_then_signIn_witness :
  @JWT_KEY demo <> "" /\
  existsb (fun u => String.eqb (user_email u) "c@x.com") (Users demo_world) = false /\
  exists user p,
    result (user <- @UserService.create demo (mkData "c@x.com" "s3cret") ;;
            token <- @UserService.signIn demo "c@x.com" "s3cret" ;;
            ret (user, token)) demo_world =
      Return (user, Jws p (@HS256 demo (@JWT_KEY demo) p)) /\
    claims_of p = mkClaims (user_email user) (user_id user) /\
    user_email user = "c@x.com".
Proof.
  assert (Hkey : @JWT_KEY demo <> "") by (simpl; discriminate).
  split; [exact Hkey|]. split; [reflexivity|].
  exact (@create_then_signIn demo (mkData "c@x.com" "s3cret") demo_world
           Hkey eq_refl eq_refl).
Defined.

Lemma signIn_then_isAuthenticated_witness :
  result (@UserService.signIn demo "a@x.com" "pw123") demo_world = Return alice_token /\
  jwt.clockTimestamp demo_world < jwt.clockTimestamp demo_world + 86400 /\
  @UserService.isAuthenticated demo alice_token demo_world = (Return true, demo_world).
Proof.
  split; [reflexivity|]. split; [reflexivity|].
  exact (@signIn_then_isAuthenticated demo "a@x.com" "pw123" demo_world demo_world
           alice_token eq_refl eq_refl eq_refl).
Defined.

Lemma signIn_token_expires_witness :
  result (@UserService.signIn demo "a@x.com" "pw123") demo_world = Return alice_token /\
  jwt.clockTimestamp demo_world + 86400 <= jwt.clockTimestamp (day_later demo_world) /\
  result (@UserService.isAuthenticated demo alice_token) (day_later demo_world) =
    Throw (TokenExpiredError "jwt expired").
Proof.
  assert (Hlate : jwt.clockTimestamp demo_world + 86400 <=
                  jwt.clockTimestamp (day_later demo_world))
    by (vm_compute; discriminate).
  split; [reflexivity|]. split; [exact Hlate|].
  exact (@signIn_token_expires demo "a@x.com" "pw123" demo_world (day_later demo_world)
           alice_token eq_refl Hlate).
Defined.

Lemma destroy_revokes_token_witness :
  result (@UserService.verifyToken demo alice_token) demo_world =
    Return (Object alice_payload) /\
  result (@UserRepository.destroy demo 1 ;;;
          @UserService.isAuthenticated demo alice_token) demo_world =
    Throw (Thrown "No user with the corresponding token exists").
Proof.
  split; [reflexivity|].
  exact (proj1 (@destroy_revokes_token demo alice_token demo_world alice_payload eq_refl)).
Defined.

Lemma destroy_leaves_other_accounts_witness :
  2 <> 1 /\
  result (@UserRepository.getById demo (Some (VNum 2)))
         (world_after (@UserRepository.destroy demo 1) demo_world') =
    Return (Some (mkSummary "b@x.com" 2)) /\
  Sequelize.edge (User_Roles (world_after (@UserRepository.destroy demo 1) demo_world'))
                 2 2 = true.
Proof.
  assert (Hneq : 2 <> 1) by discriminate.
  destruct (@destroy_leaves_other_accounts demo 1 2 demo_world' Hneq)
    as (Hlookup & Hedges & _).
  split; [exact Hneq|]. split.
  - rewrite Hlookup. reflexivity.
  - rewrite Hedges. reflexivity.
Defined.

Lemma destroy_missing_account_witness :
  find (fun u => user_id u =? 42) (Users demo_world) = None /\
  @UserRepository.destroy demo 42 demo_world = (Return true, demo_world).
Proof.
  split; [reflexivity|].
  exact (@destroy_missing_account demo 42 demo_world eq_refl).
Defined.

Lemma no_key_no_session_witness :
  @JWT_KEY demo_without_key = "" /\
  (forall t, result (@UserService.signIn demo_without_key "a@x.com" "pw123") demo_world
             <> Return t).
Proof.
  split; [reflexivity|].
  exact (proj1 (@no_key_no_session demo_without_key "a@x.com" "pw123" alice_token
                  demo_world eq_refl)).
Defined.

Lemma create_twice_witness :
  existsb (fun u => String.eqb (user_email u) "c@x.com") (Users demo_world) = false /\
  result (@UserService.create demo (mkData "c@x.com" "other"))
         (world_after (@UserService.create demo (mkData "c@x.com" "s3cret")) demo_world) =
    Throw (AppErrors "ServerError" "Something went wrong in the service layer"
                     "Logical issue found" 500).
Proof.
  split; [reflexivity|].
  exact (proj1 (proj2 (@create_twice demo (mkData "c@x.com" "s3cret")
                         (mkData "c@x.com" "other") demo_world eq_refl eq_refl))).
Defined.

Lemma signIn_answers_tell_unknown_email_witness :
  exists r1 r2,
    result (@UserController.signIn demo (mkRequest "nobody@x.com" "pw123" 0 NoToken))
           demo_world = Return r1 /\
    result (@UserController.signIn demo (mkRequest "a@x.com" "wrong" 0 NoToken))
           demo_world = Return r2 /\
    status r1 = 500 /\ status r2 = 500 /\
    message r1 = "Cannot read properties of null (reading 'password')" /\
    message r2 = "Something went wrong" /\
    r1 <> r2.
Proof.
  exact (@signIn_answers_tell_unknown_email demo
           (mkRequest "nobody@x.com" "pw123" 0 NoToken)
           (mkRequest "a@x.com" "wrong" 0 NoToken) demo_world alice
           eq_refl eq_refl eq_refl).
Defined.
